(** * Aggregation of the Aarhus rental listings

    A shallow embedding of [src/aggregate_data.py]: the district
    aggregator [get_district_aggregates], the nearest-price search
    [similar_rent_prices] and the street aggregator [get_street_aggregates],
    followed by the properties of the specification that concern them.

    Conventions of the embedding.
    - A pandas frame is a list of rows; the listing table is a list of
      [listing] records plus the optional [time] column that the district
      aggregator adds in place.
    - Prices are rationals ([Q]); a mean is kept in lowest terms so that two
      equal means are equal terms.  Binary floating point is not modelled.
    - A missing cell of a pivoted frame (pandas NaN / None) is [None].
    - An exception raised by pandas is a value [Raise e] of [result].
    - Writing the csv files ([to_csv]) is left out: the functions return the
      table they write. *)

From Stdlib Require Import List String Ascii Bool ZArith QArith Qabs Qround.
From Stdlib Require Import Lia Permutation Sorted Orders Mergesort DecimalString.
From Stdlib Require Import Lqa.
From Stdlib Require OrderedTypeEx.
Import ListNotations.

Local Open Scope string_scope.
Local Open Scope list_scope.
Local Open Scope Z_scope.

(** ** Exceptions *)

Inductive error : Type :=
| LengthMismatch (expected got : nat)   (* assigning [frame.columns] *)
| ColumnsPassed (passed had : nat)      (* [pd.DataFrame(rows, columns=...)] *)
| KeyError (column : string).

Inductive result (A : Type) : Type :=
| Ok (a : A)
| Raise (e : error).
Arguments Ok {A} a.
Arguments Raise {A} e.

Definition bind {A B : Type} (r : result A) (k : A -> result B) : result B :=
  match r with
  | Ok a => k a
  | Raise e => Raise e
  end.

Notation "x <- r ;; k" := (bind r (fun x => k))
  (at level 61, r at next level, right associativity).

(** ** The listing table *)

(** Modelled from the spec: the values of the [rental_type] column, apartment
    or room.  The script compares the column with "apartment" and names its
    price columns after these two values. *)
Inductive rental_kind : Type := apartment | room.

(** Modelled from the spec: the values of the [rooms] column.  The data set is
    not part of the sources; the specification gives the five buckets
    1, 2, 3, 4 and "+4", and the aggregator names its five count columns in
    this order. *)
Inductive rooms_bucket : Type :=
| rooms_1 | rooms_2 | rooms_3 | rooms_4 | rooms_over_4.

Record listing : Type := mkListing {
  id : Z;
  district : string;
  street : string;
  rental_type : rental_kind;
  year : Z;
  rooms : rooms_bucket;
  rent_per_square_meter : Q;
  rent_without_expenses : Q;
  geometry : string;
  geometry_street : string
}.

(** [complete_data]: the rows read from the csv file, and the column [time],
    absent until the district aggregator assigns it. *)
Record DataFrame : Type := mkFrame {
  records : list listing;
  time : option (list string)
}.

Definition rental_eqb (a b : rental_kind) : bool :=
  match a, b with
  | apartment, apartment | room, room => true
  | _, _ => false
  end.

Definition rooms_eqb (a b : rooms_bucket) : bool :=
  match a, b with
  | rooms_1, rooms_1 | rooms_2, rooms_2 | rooms_3, rooms_3
  | rooms_4, rooms_4 | rooms_over_4, rooms_over_4 => true
  | _, _ => false
  end.

(** ** Frame operations used by the script *)

(** [Series.mean] and [GroupBy.count] *)
Definition Qsum (l : list Q) : Q := fold_right Qplus 0%Q l.

Definition mean (l : list Q) : Q :=
  Qred (Qsum l / inject_Z (Z.of_nat (List.length l))).

Definition count {A : Type} (l : list A) : Z := Z.of_nat (List.length l).

(** [DataFrame.round(1)] on one cell: the nearest multiple of 1/10, a tie
    going to the even one.  The script rounds the floating-point mean, which
    at a tie of the exact mean can fall on either side of it; the properties
    below use of a rounded price only that it is at most 1/20 away from the
    mean. *)
Definition round1 (q : Q) : Q :=
  let s := (q * 10)%Q in
  let f := Qfloor s in
  let twice := (2 * (s - inject_Z f))%Q in
  let n := match Qcompare twice 1%Q with
           | Lt => f
           | Gt => f + 1
           | Eq => if Z.even f then f else f + 1
           end in
  Qred (inject_Z n / 10).

(** [drop_duplicates()]: the first occurrence of every row is kept. *)
Fixpoint drop_duplicates {A : Type} (eqb : A -> A -> bool) (l : list A) : list A :=
  match l with
  | [] => []
  | x :: t => x :: filter (fun y => negb (eqb x y)) (drop_duplicates eqb t)
  end.

(** Group keys: [groupby] and [pivot] list every key once, in sorted order. *)
Module StringOrder <: TotalLeBool.
Definition t := string.
Definition leb := String.leb.
Theorem leb_total : forall a b, leb a b = true \/ leb b a = true.
Proof. exact String.leb_total. Qed.
End StringOrder.

Module KeySort := Sort StringOrder.

Definition group_keys (keys : list string) : list string :=
  KeySort.sort (drop_duplicates String.eqb keys).

(** [left.merge(right, on=key)]: the default inner join.  Every left row is
    paired with the right rows of the same key, in the order of the left
    rows; a row without partner on the other side yields nothing. *)
Definition merge {A B C : Type} (ka : A -> string) (kb : B -> string)
    (f : A -> B -> C) (left : list A) (right : list B) : list C :=
  flat_map (fun a => map (f a) (filter (fun b => String.eqb (ka a) (kb b)) right)) left.

(** A pivoted frame after [reset_index()]: the index column [district]
    followed by one column per label, every row holding one cell per
    label. *)
Record frame (L V : Type) : Type := mkWide {
  columns : list L;
  rows : list (string * list V)
}.
Arguments mkWide {L V} columns rows.
Arguments columns {L V} f.
Arguments rows {L V} f.

(** [frame.columns = names]: the names are given by position, the first one
    to the index column; pandas raises unless there is one name per column. *)
Definition set_columns {L V : Type} (names : list string) (f : frame L V)
    : result (frame string V) :=
  if (List.length names =? S (List.length (columns f)))%nat
  then Ok (mkWide (tl names) (rows f))
  else Raise (LengthMismatch (S (List.length (columns f))) (List.length names)).

Definition mem (s : string) (l : list string) : bool :=
  existsb (String.eqb s) l.

(** [frame.drop(columns=names)] *)
Definition drop_columns {V : Type} (names : list string) (f : frame string V)
    : frame string V :=
  let keep (p : string * V) := negb (mem (fst p) names) in
  mkWide (filter (fun c => negb (mem c names)) (columns f))
         (map (fun r => (fst r, map snd (filter keep (combine (columns f) (snd r)))))
              (rows f)).

Definition map_cells {L V W : Type} (g : V -> W) (f : frame L V) : frame L W :=
  mkWide (columns f) (map (fun r => (fst r, map g (snd r))) (rows f)).

(** The cells of a row with their column names. *)
Definition named {V : Type} (f : frame string V) : list (string * list (string * V)) :=
  map (fun r => (fst r, combine (columns f) (snd r))) (rows f).

(** [groupby] on the district and a second key of finitely many values
    ([all_keys], in sorted order), and [pivot] of such groups.  [groupby]
    yields one aggregate per pair of keys that occurs, in sorted order;
    [pivot] makes a column for every second key that occurs in some group and
    a row for every district, a cell being the group of that district and
    key, if any.  With one column key ([pivot]) the columns come in the sorted
    order of the key; with a list of column keys ([pivot_multi]) pandas
    numbers the key tuples as they turn up in the rows, so that the columns
    come in the order in which the tuples first occur. *)
Section Grouping.
Context {R K : Type} (keqb : K -> K -> bool) (all_keys : list K).
Context (kd : R -> string) (kk : R -> K).

Definition in_group (d : string) (c : K) (r : R) : bool :=
  String.eqb (kd r) d && keqb (kk r) c.

Definition one_group {V : Type} (agg : string -> K -> list R -> V) (l : list R)
    (d : string) (c : K) : list V :=
  match filter (in_group d c) l with
  | [] => []
  | g => [agg d c g]
  end.

Definition groupby {V : Type} (agg : string -> K -> list R -> V) (l : list R)
    : list V :=
  flat_map (fun d => flat_map (one_group agg l d) all_keys) (group_keys (map kd l)).

Definition pivot (groups : list R) : frame K (option R) :=
  let cols := filter (fun c => existsb (fun g => keqb (kk g) c) groups) all_keys in
  mkWide cols
         (map (fun d => (d, map (fun c => find (in_group d c) groups) cols))
              (group_keys (map kd groups))).

Definition pivot_multi (groups : list R) : frame K (option R) :=
  let cols := drop_duplicates keqb (map kk groups) in
  mkWide cols
         (map (fun d => (d, map (fun c => find (in_group d c) groups) cols))
              (group_keys (map kd groups))).
End Grouping.

(** ** The district aggregator, [get_district_aggregates] *)

(** [lambda x: "now" if x == 2023 else "then"] *)
Definition time_of (x : Z) : string :=
  if x =? 2023 then "now" else "then".

(** [complete_data["time"] = complete_data["year"].apply(...)]: the column is
    written into the caller's frame. *)
Definition assign_time (complete_data : DataFrame) : DataFrame :=
  mkFrame (records complete_data)
          (Some (map (fun l => time_of (year l)) (records complete_data))).

(** The rows of the frame together with their [time] cell. *)
Definition with_time (complete_data : DataFrame) : result (list (listing * string)) :=
  match time complete_data with
  | Some col => Ok (combine (records complete_data) col)
  | None => Raise (KeyError "time")
  end.

(** A pair (rental_type, time).  [all_combos] lists the possible pairs in the
    sorted order in which [groupby] enumerates them. *)
Definition combo : Type := (rental_kind * string)%type.

Definition all_combos : list combo :=
  [(apartment, "now"); (apartment, "then"); (room, "now"); (room, "then")].

Definition combo_eqb (a b : combo) : bool :=
  rental_eqb (fst a) (fst b) && String.eqb (snd a) (snd b).

Record price_group : Type := mkGroup {
  pg_district : string;
  pg_combo : combo;
  pg_sqm : Q;
  pg_rent : Q
}.

Definition tagged_combo (r : listing * string) : combo := (rental_type (fst r), snd r).

(** [groupby(["district", "rental_type", "time"]).agg({...: "mean"})] *)
Definition groupby_mean (tagged : list (listing * string)) : list price_group :=
  groupby combo_eqb all_combos (fun r => district (fst r)) tagged_combo
    (fun d c g => mkGroup d c
                    (mean (map (fun r => rent_per_square_meter (fst r)) g))
                    (mean (map (fun r => rent_without_expenses (fst r)) g)))
    tagged.

(** [pivot(index=["district"], columns=["rental_type", "time"],
    values=["rent_per_square_meter", "rent_without_expenses"])]: the columns
    of the first value, then those of the second, the pairs
    (rental_type, time) in the order in which they first occur in the grouped
    frame. *)
Definition pivot_prices (gs : list price_group) : frame (string * combo) (option Q) :=
  let p := pivot_multi combo_eqb pg_district pg_combo gs in
  mkWide (map (pair "rent_per_square_meter") (columns p)
          ++ map (pair "rent_without_expenses") (columns p))
         (map (fun r => (fst r, map (option_map pg_sqm) (snd r)
                                ++ map (option_map pg_rent) (snd r)))
              (rows p)).

Definition all_buckets : list rooms_bucket :=
  [rooms_1; rooms_2; rooms_3; rooms_4; rooms_over_4].

Record count_group : Type := mkCount {
  cg_district : string;
  cg_rooms : rooms_bucket;
  cg_count : Z
}.

(** [groupby(["district", "rooms"])["id"].count()] *)
Definition groupby_count (l : list listing) : list count_group :=
  groupby rooms_eqb all_buckets district rooms
    (fun d b g => mkCount d b (count (map id g))) l.

(** [reset_index().pivot(index=["district"], columns=["rooms"], values=["id"])] *)
Definition pivot_counts (gs : list count_group) : frame rooms_bucket (option Z) :=
  map_cells (option_map cg_count) (pivot rooms_eqb all_buckets cg_district cg_rooms gs).

(** [fillna(0)] on one cell *)
Definition fillna0 (c : option Z) : Z :=
  match c with Some n => n | None => 0 end.

Definition price_names : list string :=
  ["district"; "apartment_rent_sqm_now"; "apartment_rent_sqm_then";
   "room_rent_sqm_now"; "room_rent_sqm_then";
   "apartment_rent_now"; "apartment_rent_then"; "room_rent_now"; "room_rent_then"].

Definition dropped_names : list string :=
  ["room_rent_sqm_now"; "room_rent_sqm_then"; "apartment_rent_now"; "apartment_rent_then"].

Definition count_names : list string :=
  ["district"; "apartments_w_1_room"; "apartments_w_2_rooms"; "apartments_w_3_rooms";
   "apartments_w_4_rooms"; "apartments_w_+4_rooms"].

(** A row of [district_aggregates.csv]: the district, the named price cells,
    the named room counts and the geometry. *)
Record district_row : Type := mkDistrict {
  dr_district : string;
  dr_prices : list (string * option Q);
  dr_counts : list (string * Z);
  dr_geometry : string
}.

Definition pair_eqb (a b : string * string) : bool :=
  String.eqb (fst a) (fst b) && String.eqb (snd a) (snd b).

(** Line 58, [district_data.merge(apartment_rooms_count, on="district")]. *)
Definition join_counts {P C : Type} (prices : list (string * P))
    (counts : list (string * C)) : list (string * (P * C)) :=
  merge fst fst (fun a b => (fst a, (snd a, snd b))) prices counts.

(** A district with its named price cells and its named room counts. *)
Definition counted_row : Type :=
  (string * (list (string * option Q) * list (string * Z)))%type.

(** Line 61, the join with the geometry. *)
Definition join_geometry (district_data : list counted_row)
    (geometries : list (string * string)) : list district_row :=
  merge fst fst (fun a g => mkDistrict (fst a) (fst (snd a)) (snd (snd a)) (snd g))
        district_data geometries.

(** The district rows that [get_district_aggregates] computes from the frame
    once the [time] column is there (lines 29 to 61 of the script). *)
Definition district_table (complete_data : DataFrame) : result (list district_row) :=
  tagged <- with_time complete_data ;;
  let district_data := groupby_mean tagged in
  let district_data := pivot_prices district_data in
  district_data <- set_columns price_names district_data ;;
  let district_data := drop_columns dropped_names district_data in
  let district_data := map_cells (option_map round1) district_data in
  let apartment_rooms_count :=
    groupby_count (filter (fun l => year l =? 2023) (records complete_data)) in
  let apartment_rooms_count := pivot_counts apartment_rooms_count in
  apartment_rooms_count <- set_columns count_names apartment_rooms_count ;;
  let apartment_rooms_count := map_cells fillna0 apartment_rooms_count in
  let district_data :=
    join_counts (named district_data) (named apartment_rooms_count) in
  let district_data :=
    join_geometry district_data
      (drop_duplicates pair_eqb
         (map (fun l => (district l, geometry l)) (records complete_data))) in
  Ok district_data.

(** The call returns the frame as it leaves it and the table it computed (or
    the exception). *)
Definition get_district_aggregates (complete_data : DataFrame)
    : DataFrame * result (list district_row) :=
  let complete_data := assign_time complete_data in
  (complete_data, district_table complete_data).

(** *** A small table *)

Definition sample : DataFrame :=
  mkFrame
    [ mkListing 1 "Centrum" "Nygade" apartment 2023 rooms_1 (150#1) (6000#1) "POLYGON C" "LINE N";
      mkListing 2 "Centrum" "Nygade" apartment 2023 rooms_2 (155#1) (9000#1) "POLYGON C" "LINE N";
      mkListing 3 "Centrum" "Aagade" room 2023 rooms_1 (200#1) (3500#1) "POLYGON C" "LINE A";
      mkListing 4 "Centrum" "Aagade" apartment 2014 rooms_3 (100#1) (7000#1) "POLYGON C" "LINE A";
      mkListing 5 "Viby" "Skovvej" apartment 2023 rooms_3 (120#1) (8000#1) "POLYGON V" "LINE S";
      mkListing 6 "Viby" "Skovvej" apartment 2023 rooms_4 (110#1) (9500#1) "POLYGON V" "LINE S";
      mkListing 7 "Viby" "Skovvej" apartment 2023 rooms_over_4 (105#1) (12000#1) "POLYGON V" "LINE S";
      mkListing 8 "Viby" "Engvej" room 2016 rooms_1 (90#1) (2500#1) "POLYGON V" "LINE E";
      mkListing 9 "Hasle" "Bakken" apartment 2016 rooms_2 (95#1) (5000#1) "POLYGON H" "LINE B" ]
    None.

(** ** The nearest streets by price, [similar_rent_prices] *)

(** A row of [street_data] after the [groupby]. *)
Record street_row : Type := mkStreet {
  sr_street : string;
  sr_sqm : Q;
  sr_rent : Q
}.

(** [DataFrame.head(n)]: the first [n] rows, or all rows but the last [-n]
    ones when [n] is negative. *)
Definition head {A : Type} (n : Z) (l : list A) : list A :=
  if 0 <=? n then firstn (Z.to_nat n) l
  else firstn (List.length l - Z.to_nat (- n)) l.

(** The order of two rows by their [abs_diff] cell. *)
Definition by_abs_diff (a b : street_row * Q) : Prop := (snd a <= snd b)%Q.

(** [sort_values(by="abs_diff", ascending=True)].  The script leaves [kind] at
    its default, quicksort, which pandas documents as not stable; which
    permutation is returned among rows of equal [abs_diff] depends on the
    numpy build.  The sort is therefore a parameter of the model, given with
    the two properties every [kind] has: the result is a permutation of the
    rows, in non-decreasing order of the key. *)
Record sorter : Type := mkSorter {
  sort_values : list (street_row * Q) -> list (street_row * Q);
  sort_values_perm : forall l, Permutation (sort_values l) l;
  sort_values_sorted : forall l, Sorted by_abs_diff (sort_values l)
}.

Definition abs_diff (target_rent : Q) (o : street_row) : Q :=
  Qabs (sr_sqm o - target_rent).

(** The body of the loop (lines 86 to 96): the rows of the [n] streets closest
    in price to the row [target]. *)
Definition similar_streets (s : sorter) (street_data : list street_row) (n : Z)
    (target : street_row) : list street_row :=
  let target_street := sr_street target in
  let target_rent := sr_sqm target in
  let other_streets :=
    filter (fun o => negb (String.eqb (sr_street o) target_street)) street_data in
  let other_streets := map (fun o => (o, abs_diff target_rent o)) other_streets in
  let similar_streets := head n (sort_values s other_streets) in
  map fst similar_streets.

(** [for i in range(len(street_data))]: one list per row. *)
Definition most_similar (s : sorter) (street_data : list street_row) (n : Z)
    : list (list street_row) :=
  map (similar_streets s street_data n) street_data.

(** [str(n)] *)
Definition str (n : nat) : string := NilEmpty.string_of_uint (Nat.to_uint n).

(** ['most_similar_{}'.format(i+1) for i in range(5)] *)
Definition new_columns_streets : list string :=
  map (fun i => "most_similar_" ++ str (i + 1))%string (seq 0 5).

Definition new_columns_rents : list string :=
  map (fun i => "most_similar_rent_" ++ str (i + 1))%string (seq 0 5).

(** [pd.DataFrame(lists, columns=names)]: the lists become rows as wide as the
    longest of them, shorter ones filled with None; pandas raises unless that
    width is the number of names.  No list at all gives an empty frame. *)
Definition width {A : Type} (lists : list (list A)) : nat :=
  fold_right (fun l m => Nat.max (List.length l) m) 0%nat lists.

Definition pad {A : Type} (w : nat) (l : list A) : list (option A) :=
  map Some l ++ repeat None (w - List.length l).

Definition unpack {A : Type} (names : list string) (lists : list (list A))
    : result (list (list (string * option A))) :=
  match lists with
  | [] => Ok []
  | _ =>
      if (width lists =? List.length names)%nat
      then Ok (map (fun l => combine names (pad (width lists) l)) lists)
      else Raise (ColumnsPassed (List.length names) (width lists))
  end.

Record similar_row : Type := mkSimilar {
  sim_row : street_row;
  sim_streets : list (string * option string);
  sim_rents : list (string * option Q)
}.

(** The two list columns assigned on lines 103 and 104 are dropped again on
    line 118; the rows returned are those of [street_data] with the unpacked
    columns. *)
Definition similar_rent_prices (s : sorter) (street_data : list street_row)
    (n_similar_streets : Z) : result (list similar_row) :=
  let lists := most_similar s street_data n_similar_streets in
  let most_similar_streets := map (map sr_street) lists in
  let most_similar_rents := map (map sr_sqm) lists in
  unpacked_df_streets <- unpack new_columns_streets most_similar_streets ;;
  unpacked_df_rents <- unpack new_columns_rents most_similar_rents ;;
  (* pd.concat(..., axis=1): the three frames side by side, row by row *)
  Ok (map (fun r => mkSimilar (fst r) (fst (snd r)) (snd (snd r)))
          (combine street_data (combine unpacked_df_streets unpacked_df_rents))).

(** ** The street aggregator, [get_street_aggregates] *)

(** [groupby(["street"]).agg({...: "mean"}).reset_index()] *)
Definition groupby_street_mean (l : list listing) : list street_row :=
  map (fun k =>
         let g := filter (fun r => String.eqb (street r) k) l in
         mkStreet k (mean (map rent_per_square_meter g)) (mean (map rent_without_expenses g)))
      (group_keys (map street l)).

(** [groupby(["street"])["id"].count()] *)
Definition groupby_street_count (l : list listing) : list (string * Z) :=
  map (fun k => (k, count (map id (filter (fun r => String.eqb (street r) k) l))))
      (group_keys (map street l)).

(** A row of [street_aggregates.csv]. *)
Record street_aggregate : Type := mkAggregate {
  sa_street : string;
  sa_rent_per_square_meter : Q;
  sa_rent_without_expenses : Q;
  sa_most_similar : list (string * option string);
  sa_most_similar_rent : list (string * option Q);
  sa_count : Z;
  sa_geometry_street : string
}.

Definition get_street_aggregates (s : sorter) (complete_data : DataFrame)
    (n_similar_streets : Z) : result (list street_aggregate) :=
  let complete_data := filter (fun l => year l =? 2023) (records complete_data) in
  let complete_data :=
    filter (fun l => rental_eqb (rental_type l) apartment) complete_data in
  let street_data := groupby_street_mean complete_data in
  street_data <- similar_rent_prices s street_data n_similar_streets ;;
  let street_counts := groupby_street_count complete_data in
  let street_data :=
    merge (fun a => sr_street (sim_row a)) fst (fun a c => (a, snd c))
          street_data street_counts in
  let street_data :=
    merge (fun a => sr_street (sim_row (fst a))) fst
          (fun a g => mkAggregate (sr_street (sim_row (fst a))) (sr_sqm (sim_row (fst a)))
                        (sr_rent (sim_row (fst a))) (sim_streets (fst a))
                        (sim_rents (fst a)) (snd a) (snd g))
          street_data
          (drop_duplicates pair_eqb
             (map (fun l => (street l, geometry_street l)) complete_data)) in
  Ok street_data.

(** [main]: both aggregators run on the same frame object, the district one
    first; an exception ends the run. *)
Definition main (s : sorter) (complete_data : DataFrame)
    : result (list district_row * list street_aggregate) :=
  let (complete_data, district_data) := get_district_aggregates complete_data in
  district_data <- district_data ;;
  street_data <- get_street_aggregates s complete_data 5 ;;
  Ok (district_data, street_data).

(** ** Notions used in the statements *)

(** The listings that the street aggregator keeps (lines 135 and 138). *)
Definition apartments_of_2023 (complete_data : DataFrame) : list listing :=
  filter (fun l => rental_eqb (rental_type l) apartment)
    (filter (fun l => year l =? 2023) (records complete_data)).

(** The number of rows of key [d]. *)
Definition rows_of {A : Type} (key : A -> string) (d : string) (l : list A) : nat :=
  List.length (filter (fun a => String.eqb (key a) d) l).

(** The two pivoted tables that the aggregator joins: the price table and the
    room-count table. *)
Definition tagged_listings (complete_data : DataFrame) : list (listing * string) :=
  map (fun l => (l, time_of (year l))) (records complete_data).

Definition price_table (complete_data : DataFrame) : frame (string * combo) (option Q) :=
  pivot_prices (groupby_mean (tagged_listings complete_data)).

Definition listings_2023 (complete_data : DataFrame) : list listing :=
  filter (fun l => year l =? 2023) (records complete_data).

Definition count_table (complete_data : DataFrame) : frame rooms_bucket (option Z) :=
  pivot_counts (groupby_count (listings_2023 complete_data)).

Definition district_geometry (complete_data : DataFrame) : list (string * string) :=
  drop_duplicates pair_eqb (map (fun l => (district l, geometry l)) (records complete_data)).

(** The rows written once both column assignments went through. *)
Definition joined (complete_data : DataFrame) (prices : frame string (option Q))
    (counts : frame string (option Z)) : list district_row :=
  join_geometry
    (join_counts
       (named (map_cells (option_map round1) (drop_columns dropped_names prices)))
       (named (map_cells fillna0 counts)))
    (district_geometry complete_data).

Definition all_combos_occur (complete_data : DataFrame) : Prop :=
  forall k t, In (k, t) all_combos ->
    exists l, In l (records complete_data) /\ rental_type l = k /\ time_of (year l) = t.

Definition all_buckets_occur_in_2023 (complete_data : DataFrame) : Prop :=
  forall b, exists l, In l (records complete_data) /\ year l = 2023 /\ rooms l = b.

(** Every district has one geometry. *)
Definition one_geometry_per_district (complete_data : DataFrame) : Prop :=
  forall l l', In l (records complete_data) -> In l' (records complete_data) ->
    district l = district l' -> geometry l = geometry l'.

Definition Zsum (l : list Z) : Z := fold_right Z.add 0 l.

(** The sum of the five room-count cells of a row. *)
Definition room_count_sum (r : district_row) : Z := Zsum (map snd (dr_counts r)).

(** The listings of a district that are counted, and those that are
    apartments of 2023. *)
Definition counted_listings (complete_data : DataFrame) (d : string) : list listing :=
  filter (fun l => String.eqb (district l) d) (listings_2023 complete_data).

Definition apartments_2023 (complete_data : DataFrame) (d : string) : list listing :=
  filter (fun l => rental_eqb (rental_type l) apartment) (counted_listings complete_data d).

(** The rows that a target row is compared with, with their key. *)
Definition other_streets (street_data : list street_row) (target : street_row)
    : list (street_row * Q) :=
  map (fun o => (o, abs_diff (sr_sqm target) o))
      (filter (fun o => negb (String.eqb (sr_street o) (sr_street target))) street_data).



(** The joins of the street aggregator (lines 147 to 156). *)
Definition street_join (complete_data : DataFrame) (street_data : list similar_row)
    : list street_aggregate :=
  merge (fun a => sr_street (sim_row (fst a))) fst
    (fun a g => mkAggregate (sr_street (sim_row (fst a))) (sr_sqm (sim_row (fst a)))
                  (sr_rent (sim_row (fst a))) (sim_streets (fst a))
                  (sim_rents (fst a)) (snd a) (snd g))
    (merge (fun a => sr_street (sim_row a)) fst (fun a c => (a, snd c))
       street_data (groupby_street_count (apartments_of_2023 complete_data)))
    (drop_duplicates pair_eqb
       (map (fun l => (street l, geometry_street l)) (apartments_of_2023 complete_data))).

(** The listings of a street that the street aggregator considers. *)
Definition street_listings (complete_data : DataFrame) (k : string) : list listing :=
  filter (fun l => (year l =? 2023) && rental_eqb (rental_type l) apartment
                   && String.eqb (street l) k)
         (records complete_data).

(** [street_data] as it enters [similar_rent_prices]. *)
Definition street_means (complete_data : DataFrame) : list street_row :=
  groupby_street_mean (apartments_of_2023 complete_data).

(** The table [sample] with one more listing in Centrum, whose geometry string
    differs from that of the other listings of the district. *)
Definition two_geometries : DataFrame :=
  mkFrame
    (mkListing 10 "Centrum" "Nygade" apartment 2023 rooms_2 (160#1) (9900#1) "POLYGON C2" "LINE N"
     :: records sample)
    None.

(** ** Notions used in the further properties *)


Definition bucket_listings (complete_data : DataFrame) (d : string) (b : rooms_bucket)
    : list listing :=
  filter (fun l => String.eqb (district l) d && rooms_eqb (rooms l) b)
         (listings_2023 complete_data).


(** The order of the group keys: strings by their characters. *)
Definition string_le (a b : string) : Prop := String.leb a b = true.

(** The pairs (rental_type, time) that occur among the listings, and the rooms
    buckets that occur among the listings of 2023. *)
Definition occurring_combos (complete_data : DataFrame) : list combo :=
  filter (fun c => existsb (fun r => combo_eqb (tagged_combo r) c)
                     (tagged_listings complete_data)) all_combos.

(** The pairs that the listings of district [d] have, in sorted order, and
    the order in which the pairs first occur when the listings are grouped by
    district, rental type and time: the order of the price columns. *)
Definition combos_of (complete_data : DataFrame) (d : string) : list combo :=
  filter (fun c => existsb (in_group combo_eqb (fun r => district (fst r)) tagged_combo d c)
                     (tagged_listings complete_data)) all_combos.

Definition price_columns (complete_data : DataFrame) : list combo :=
  drop_duplicates combo_eqb
    (flat_map (combos_of complete_data) (group_keys (map district (records complete_data)))).

Definition occurring_buckets (complete_data : DataFrame) : list rooms_bucket :=
  filter (fun b => existsb (fun l => rooms_eqb (rooms l) b)
                     (listings_2023 complete_data)) all_buckets.

(** The number of rows that [head(n)] keeps of [m] rows. *)
Definition head_length (n : Z) (m : nat) : nat :=
  if 0 <=? n then Nat.min (Z.to_nat n) m else (m - Z.to_nat (- n))%nat.

(** The row of [street_data] for [target] with its unpacked columns, when the
    similar streets are [similar]. *)
Definition unpacked_row (target : street_row) (similar : list street_row) : similar_row :=
  mkSimilar target
    (combine new_columns_streets (map (fun x => Some (sr_street x)) similar))
    (combine new_columns_rents (map (fun x => Some (sr_sqm x)) similar)).

(** The pairs of a street and a street geometry that the street aggregator
    joins (line 156). *)
Definition street_geometry (complete_data : DataFrame) : list (string * string) :=
  drop_duplicates pair_eqb
    (map (fun l => (street l, geometry_street l)) (apartments_of_2023 complete_data)).

(** Every street has one street geometry among the apartment listings of
    2023. *)
Definition one_geometry_per_street (complete_data : DataFrame) : Prop :=
  forall l l', In l (apartments_of_2023 complete_data) ->
    In l' (apartments_of_2023 complete_data) ->
    street l = street l' -> geometry_street l = geometry_street l'.




(** The table [sample] with one more district, Aaby, which comes first in
    sorted order and has a single listing, a room offered in 2023. *)
Definition aaby_first : DataFrame :=
  mkFrame
    (mkListing 10 "Aaby" "Soren Frichs Vej" room 2023 rooms_1 (50#1) (2000#1) "POLYGON A" "LINE F"
     :: records sample)
    None.


(** ** Sorts that meet the contract *)

Fixpoint insert_by_key (x : street_row * Q) (l : list (street_row * Q))
    : list (street_row * Q) :=
  match l with
  | [] => [x]
  | h :: t => if Qle_bool (snd x) (snd h) then x :: h :: t else h :: insert_by_key x t
  end.

(** Insertion sort, which keeps rows of equal key in their order. *)
Definition insertion_sort (l : list (street_row * Q)) : list (street_row * Q) :=
  fold_right insert_by_key [] l.

Lemma insert_by_key_perm (x : street_row * Q) (l : list (street_row * Q)) :
  Permutation (insert_by_key x l) (x :: l).
Proof.
  induction l as [|h t IH]; simpl.
  - apply Permutation_refl.
  - destruct (Qle_bool (snd x) (snd h)).
    + apply Permutation_refl.
    + apply Permutation_trans with (h :: x :: t).
      * now apply perm_skip.
      * apply perm_swap.
Qed.

Lemma insertion_sort_perm (l : list (street_row * Q)) :
  Permutation (insertion_sort l) l.
Proof.
  induction l as [|x t IH]; simpl.
  - apply perm_nil.
  - eapply Permutation_trans; [apply insert_by_key_perm|].
    now apply perm_skip.
Qed.

Lemma insert_by_key_sorted (x : street_row * Q) (l : list (street_row * Q)) :
  Sorted by_abs_diff l -> Sorted by_abs_diff (insert_by_key x l).
Proof.
  induction l as [|h t IH]; simpl; intros Hs.
  - repeat constructor.
  - destruct (Qle_bool (snd x) (snd h)) eqn:E.
    + constructor; [assumption|]. constructor. now apply Qle_bool_iff.
    + assert (Hhx : by_abs_diff h x).
      { unfold by_abs_diff. apply Qlt_le_weak, Qnot_le_lt.
        intro Hle. apply Qle_bool_iff in Hle. congruence. }
      inversion Hs as [|? ? Ht Hhd]; subst.
      constructor; [now apply IH|].
      destruct t as [|h' t']; simpl.
      * now constructor.
      * destruct (Qle_bool (snd x) (snd h')); constructor; [assumption|].
        now inversion Hhd.
Qed.

Lemma insertion_sort_sorted (l : list (street_row * Q)) :
  Sorted by_abs_diff (insertion_sort l).
Proof.
  induction l as [|x t IH]; simpl.
  - constructor.
  - now apply insert_by_key_sorted.
Qed.

Definition stable_sorter : sorter :=
  mkSorter insertion_sort insertion_sort_perm insertion_sort_sorted.

(** *** The default kind of [sort_values] *)

(** With [kind] left at quicksort, [sort_values] on one float column comes
    down to numpy's [argsort] of the column.  Its portable routine, the one
    that runs where numpy dispatches no vectorised sort, is an introsort on
    the array [tosort] of row numbers (at first 0, 1, 2, ...), which compares
    the keys [v] of the rows.  A range [pl..pr] of more than 17 entries is
    partitioned around the median of its first, middle and last entry; the
    larger part goes on a stack and the smaller one is treated next.  A range
    of up to 17 entries is sorted by insertion.  Pointers into the array are
    positions here, and the loops carry a bound on their number of rounds. *)
Module Argsort.
Section Keys.
Variable v : list Q.

(** [a < b] on the keys *)
Definition less (a b : Q) : bool := negb (Qle_bool b a).

(** [v[tosort[p]]] *)
Definition key (tosort : list nat) (p : nat) : Q :=
  nth (nth p tosort 0%nat) v 0%Q.

(** [tosort[p] = x] *)
Fixpoint store (tosort : list nat) (p : nat) (x : nat) : list nat :=
  match tosort, p with
  | [], _ => []
  | _ :: t, O => x :: t
  | h :: t, S p => h :: store t p x
  end.

(** [INTP_SWAP(tosort[p], tosort[q])] *)
Definition swap (tosort : list nat) (p q : nat) : list nat :=
  store (store tosort p (nth q tosort 0%nat)) q (nth p tosort 0%nat).

(** [do { ++pi; } while (less(v[*pi], vp))] *)
Fixpoint scan_up (rounds : nat) (tosort : list nat) (vp : Q) (pi : nat) : nat :=
  match rounds with
  | O => S pi
  | S rounds =>
      if less (key tosort (S pi)) vp then scan_up rounds tosort vp (S pi) else S pi
  end.

(** [do { --pj; } while (less(vp, v[*pj]))] *)
Fixpoint scan_down (rounds : nat) (tosort : list nat) (vp : Q) (pj : nat) : nat :=
  match rounds with
  | O => (pj - 1)%nat
  | S rounds =>
      if less vp (key tosort (pj - 1)) then scan_down rounds tosort vp (pj - 1)
      else (pj - 1)%nat
  end.

(** The loop [for (;;)] of the partition: both scans, then the exchange,
    until the scans have met. *)
Fixpoint exchange (rounds : nat) (tosort : list nat) (vp : Q) (pi pj : nat)
    : list nat * nat :=
  let pi := scan_up (List.length tosort) tosort vp pi in
  let pj := scan_down (List.length tosort) tosort vp pj in
  if (pj <=? pi)%nat then (tosort, pi)
  else match rounds with
       | O => (tosort, pi)
       | S rounds => exchange rounds (swap tosort pi pj) vp pi pj
       end.

(** One partition of the range [pl..pr]: the median of three goes to the
    middle and from there to [pr - 1]; the result is the array and the final
    place [pi] of the pivot. *)
Definition partition (tosort : list nat) (pl pr : nat) : list nat * nat :=
  let pm := (pl + Nat.div2 (pr - pl))%nat in
  let tosort := if less (key tosort pm) (key tosort pl) then swap tosort pm pl else tosort in
  let tosort := if less (key tosort pr) (key tosort pm) then swap tosort pr pm else tosort in
  let tosort := if less (key tosort pm) (key tosort pl) then swap tosort pm pl else tosort in
  let vp := key tosort pm in
  let pi := pl in
  let pj := (pr - 1)%nat in
  let tosort := swap tosort pm pj in
  let (tosort, pi) := exchange (List.length tosort) tosort vp pi pj in
  let pk := (pr - 1)%nat in
  (swap tosort pi pk, pi).

(** [while (pj > pl && less(vp, v[*pk])) { *pj-- = *pk--; }] *)
Fixpoint shift (rounds : nat) (tosort : list nat) (pl : nat) (vp : Q) (pj : nat)
    : list nat * nat :=
  match rounds with
  | O => (tosort, pj)
  | S rounds =>
      if (pl <? pj)%nat && less vp (key tosort (pj - 1))
      then shift rounds (store tosort pj (nth (pj - 1) tosort 0%nat)) pl vp (pj - 1)
      else (tosort, pj)
  end.

(** The insertion sort of the range [pl..pr]. *)
Definition insert_entry (pl : nat) (tosort : list nat) (pi : nat) : list nat :=
  let vi := nth pi tosort 0%nat in
  let vp := nth vi v 0%Q in
  let (tosort, pj) := shift pi tosort pl vp pi in
  store tosort pj vi.

Definition insertion (tosort : list nat) (pl pr : nat) : list nat :=
  fold_left (insert_entry pl) (seq (S pl) (pr - pl)) tosort.

(** The outer loop.  [cdepth] counts down with every partition; a range that
    is taken from the stack with a negative count is handed to heapsort, which
    is not part of the model: there is no result then. *)
Fixpoint quicksort (rounds : nat) (tosort : list nat) (pl pr : nat) (cdepth : Z)
    (stack : list (nat * nat * Z)) : option (list nat) :=
  match rounds with
  | O => None
  | S rounds =>
      if (16 <? pr - pl)%nat then
        let (tosort, pi) := partition tosort pl pr in
        let cdepth := cdepth - 1 in
        if (pi - pl <? pr - pi)%nat
        then quicksort rounds tosort pl (pi - 1) cdepth ((S pi, pr, cdepth) :: stack)
        else quicksort rounds tosort (S pi) pr cdepth ((pl, (pi - 1)%nat, cdepth) :: stack)
      else
        let tosort := insertion tosort pl pr in
        match stack with
        | [] => Some tosort
        | (pl, pr, cdepth) :: stack =>
            if cdepth <? 0 then None else quicksort rounds tosort pl pr cdepth stack
        end
  end.

(** [argsort(kind="quicksort")]: the row numbers in the order of their keys. *)
Definition argsort : option (list nat) :=
  let num := List.length v in
  quicksort (2 * num + 1) (seq 0 num) 0 (num - 1) (2 * Z.log2 (Z.of_nat num)) [].
End Keys.
End Argsort.

(** [frame.take(indexer)]: the rows at the given positions. *)
Definition take {A : Type} (l : list A) (indexer : list nat) : list A :=
  flat_map (fun i => match nth_error l i with Some a => [a] | None => [] end) indexer.

Fixpoint is_sorted (l : list (street_row * Q)) : bool :=
  match l with
  | [] => true
  | a :: t => match t with
              | [] => true
              | b :: _ => Qle_bool (snd a) (snd b) && is_sorted t
              end
  end.

(** The two laws of a sort, as a test on one result: the indexer lists every
    row once and the rows come out in non-decreasing order of the key. *)
Definition is_argsort (l : list (street_row * Q)) (indexer : list nat) : bool :=
  (List.length indexer =? List.length l)%nat
  && forallb (fun i => existsb (Nat.eqb i) indexer) (seq 0 (List.length l))
  && is_sorted (take l indexer).

(** The rows in the order that [argsort] gives.  The laws of [sorter] are
    tested on the result instead of being proved of the routine; a stable sort
    stands in where the model has no result. *)
Definition quicksort_values (l : list (street_row * Q)) : list (street_row * Q) :=
  match Argsort.argsort (map snd l) with
  | Some indexer => if is_argsort l indexer then take l indexer else insertion_sort l
  | None => insertion_sort l
  end.

Lemma take_all {A : Type} (l : list A) : take l (seq 0 (List.length l)) = l.
Proof.
  unfold take. induction l as [|a t IH]; [reflexivity|].
  cbn [List.length seq flat_map nth_error app]. f_equal.
  rewrite <- seq_shift, flat_map_concat_map, map_map, <- flat_map_concat_map.
  exact IH.
Qed.

Lemma is_sorted_Sorted (l : list (street_row * Q)) :
  is_sorted l = true -> Sorted by_abs_diff l.
Proof.
  induction l as [|a t IH]; [constructor|].
  cbn [is_sorted]. destruct t as [|b t'].
  - repeat constructor.
  - intros H. apply andb_true_iff in H. destruct H as [Hab Ht].
    constructor; [now apply IH|]. constructor. now apply Qle_bool_iff.
Qed.

Lemma is_argsort_perm (l : list (street_row * Q)) (indexer : list nat) :
  is_argsort l indexer = true -> Permutation (take l indexer) l.
Proof.
  unfold is_argsort. rewrite !andb_true_iff. intros [[Hlen Hall] _].
  apply Nat.eqb_eq in Hlen. rewrite forallb_forall in Hall.
  rewrite <- (take_all l) at 2. unfold take.
  apply Permutation_flat_map, Permutation_sym, NoDup_Permutation_bis.
  - apply seq_NoDup.
  - rewrite length_seq. lia.
  - intros i Hi. specialize (Hall i Hi). apply existsb_exists in Hall.
    destruct Hall as [j [Hj E]]. apply Nat.eqb_eq in E. now subst j.
Qed.

Lemma quicksort_values_perm (l : list (street_row * Q)) :
  Permutation (quicksort_values l) l.
Proof.
  unfold quicksort_values.
  destruct (Argsort.argsort (map snd l)) as [indexer|]; [|apply insertion_sort_perm].
  destruct (is_argsort l indexer) eqn:E; [|apply insertion_sort_perm].
  now apply is_argsort_perm.
Qed.

Lemma quicksort_values_sorted (l : list (street_row * Q)) :
  Sorted by_abs_diff (quicksort_values l).
Proof.
  unfold quicksort_values.
  destruct (Argsort.argsort (map snd l)) as [indexer|]; [|apply insertion_sort_sorted].
  destruct (is_argsort l indexer) eqn:E; [|apply insertion_sort_sorted].
  unfold is_argsort in E. rewrite !andb_true_iff in E.
  now apply is_sorted_Sorted.
Qed.

Definition quicksort_sorter : sorter :=
  mkSorter quicksort_values quicksort_values_perm quicksort_values_sorted.

(** *** The example of the specification: four streets, one listing each *)

Definition apartment_2023 (i : Z) (s : string) (sqm : Q) : listing :=
  mkListing i "Centrum" s apartment 2023 rooms_2 sqm (8000#1) "POLYGON C" ("LINE " ++ s)%string.

Definition four_streets : DataFrame :=
  mkFrame [ apartment_2023 1 "10" (10#1); apartment_2023 2 "12" (12#1);
            apartment_2023 3 "30" (30#1); apartment_2023 4 "11" (11#1) ]
          None.

(** Twenty-one streets with one listing each.  Seen from Aagade (100 per
    square meter) the other streets are at the differences 1, 2, 3, ... in
    the order of their rows, except Klostergade, which at 96 is as far away as
    Engvej at 104. *)
Definition many_streets : DataFrame :=
  mkFrame [ apartment_2023 1 "Aagade" (100#1); apartment_2023 2 "Bakken" (101#1);
            apartment_2023 3 "Carl Blochs Gade" (102#1);
            apartment_2023 4 "Dalgas Avenue" (103#1);
            apartment_2023 5 "Engvej" (104#1); apartment_2023 6 "Fredensgade" (105#1);
            apartment_2023 7 "Guldsmedgade" (106#1); apartment_2023 8 "Havnegade" (107#1);
            apartment_2023 9 "Ingerslevs Boulevard" (108#1);
            apartment_2023 10 "Jens Baggesens Vej" (109#1);
            apartment_2023 11 "Klostergade" (96#1);
            apartment_2023 12 "Langelandsgade" (111#1);
            apartment_2023 13 "Mejlgade" (112#1); apartment_2023 14 "Nygade" (113#1);
            apartment_2023 15 "Oddervej" (114#1);
            apartment_2023 16 "Paludan-Mullers Vej" (115#1);
            apartment_2023 17 "Randersvej" (116#1); apartment_2023 18 "Skovvej" (117#1);
            apartment_2023 19 "Torvet" (118#1); apartment_2023 20 "Ulvevej" (119#1);
            apartment_2023 21 "Vestergade" (120#1) ]
          None.

Definition six_streets : DataFrame :=
  mkFrame [ apartment_2023 1 "Aagade" (100#1); apartment_2023 2 "Bakken" (104#1);
            apartment_2023 3 "Bakken" (108#1); apartment_2023 4 "Engvej" (98#1);
            apartment_2023 5 "Nygade" (150#1); apartment_2023 6 "Skovvej" (102#1);
            apartment_2023 7 "Torvet" (131#1);
            mkListing 8 "Centrum" "Torvet" room 2023 rooms_1 (400#1) (3000#1) "POLYGON C" "LINE Torvet";
            mkListing 9 "Centrum" "Torvet" apartment 2016 rooms_1 (60#1) (3000#1) "POLYGON C" "LINE Torvet" ]
          None.

(** * Properties of the frame operations *)

Lemma rental_eqb_eq (a b : rental_kind) : rental_eqb a b = true <-> a = b.
Proof. destruct a, b; simpl; split; congruence. Qed.

Lemma rooms_eqb_eq (a b : rooms_bucket) : rooms_eqb a b = true <-> a = b.
Proof. destruct a, b; simpl; split; congruence. Qed.

Lemma combo_eqb_eq (a b : combo) : combo_eqb a b = true <-> a = b.
Proof.
  destruct a as [k t], b as [k' t']; unfold combo_eqb; simpl.
  rewrite andb_true_iff, rental_eqb_eq, String.eqb_eq.
  split; [intros [-> ->]; reflexivity | intros [= -> ->]; auto].
Qed.

Lemma pair_eqb_eq (a b : string * string) : pair_eqb a b = true <-> a = b.
Proof.
  destruct a as [k t], b as [k' t']; unfold pair_eqb; simpl.
  rewrite andb_true_iff, !String.eqb_eq.
  split; [intros [-> ->]; reflexivity | intros [= -> ->]; auto].
Qed.

Section Duplicates.
Context {A : Type} (eqb : A -> A -> bool).
Hypothesis eqb_eq : forall a b, eqb a b = true <-> a = b.

Lemma drop_duplicates_In (l : list A) (x : A) :
  In x (drop_duplicates eqb l) <-> In x l.
Proof.
  induction l as [|h t IH]; simpl; [tauto|].
  rewrite filter_In, IH, negb_true_iff.
  split.
  - intros [H | [H _]]; auto.
  - intros [H | H]; auto.
    destruct (eqb h x) eqn:E; [left; now apply eqb_eq | right; auto].
Qed.

Lemma drop_duplicates_NoDup (l : list A) : NoDup (drop_duplicates eqb l).
Proof.
  induction l as [|h t IH]; simpl; constructor.
  - rewrite filter_In, negb_true_iff. intros [_ H].
    assert (eqb h h = true) by now apply eqb_eq. congruence.
  - now apply NoDup_filter.
Qed.
End Duplicates.

Lemma group_keys_In (keys : list string) (k : string) :
  In k (group_keys keys) <-> In k keys.
Proof.
  unfold group_keys. rewrite <- (drop_duplicates_In String.eqb String.eqb_eq keys k).
  split; apply Permutation_in;
    [apply Permutation_sym|]; apply KeySort.Permuted_sort.
Qed.

Lemma group_keys_NoDup (keys : list string) : NoDup (group_keys keys).
Proof.
  unfold group_keys.
  eapply Permutation_NoDup; [apply KeySort.Permuted_sort|].
  apply drop_duplicates_NoDup, String.eqb_eq.
Qed.

Lemma rows_of_app {A : Type} (key : A -> string) (d : string) (l l' : list A) :
  rows_of key d (l ++ l') = (rows_of key d l + rows_of key d l')%nat.
Proof. unfold rows_of. now rewrite filter_app, length_app. Qed.

Lemma rows_of_NoDup {A : Type} (key : A -> string) (d : string) (l : list A) :
  NoDup (map key l) -> rows_of key d l = if mem d (map key l) then 1%nat else 0%nat.
Proof.
  unfold rows_of, mem.
  induction l as [|h t IH]; simpl; intros Hnd; [reflexivity|].
  inversion Hnd as [|? ? Hnotin Hnd']; subst.
  rewrite (String.eqb_sym d (key h)).
  destruct (String.eqb (key h) d) eqn:E; simpl.
  - apply String.eqb_eq in E. subst d. rewrite IH by assumption.
    destruct (existsb (String.eqb (key h)) (map key t)) eqn:E'; [|reflexivity].
    exfalso. apply Hnotin. apply existsb_exists in E'.
    destruct E' as [x [Hx Hex]]. apply String.eqb_eq in Hex. now subst x.
  - now apply IH.
Qed.

Lemma mem_In (d : string) (l : list string) : mem d l = true <-> In d l.
Proof.
  unfold mem. rewrite existsb_exists. split.
  - intros [x [Hx E]]. apply String.eqb_eq in E. now subst.
  - intros H. exists d. split; [assumption | apply String.eqb_refl].
Qed.

Section Merge.
Context {A B C : Type} (ka : A -> string) (kb : B -> string) (f : A -> B -> C).

Lemma merge_In (left : list A) (right : list B) (c : C) :
  In c (merge ka kb f left right) <->
  exists a b, In a left /\ In b right /\ ka a = kb b /\ c = f a b.
Proof.
  unfold merge. rewrite in_flat_map. split.
  - intros [a [Ha Hc]]. apply in_map_iff in Hc. destruct Hc as [b [Hc Hb]].
    apply filter_In in Hb. destruct Hb as [Hb E]. apply String.eqb_eq in E.
    exists a, b. auto.
  - intros [a [b [Ha [Hb [E Hc]]]]]. exists a. split; [assumption|].
    apply in_map_iff. exists b. split; [auto|].
    apply filter_In. split; [assumption | now apply String.eqb_eq].
Qed.

(** The rows of key [d] in a join: one for every pair of a left and a right
    row of that key. *)
Lemma merge_rows_of (kc : C -> string) (left : list A) (right : list B) (d : string) :
  (forall a b, kc (f a b) = ka a) ->
  rows_of kc d (merge ka kb f left right)
  = (rows_of ka d left * rows_of kb d right)%nat.
Proof.
  intros Hkc. unfold merge.
  induction left as [|a t IH]; simpl; [reflexivity|].
  rewrite rows_of_app, IH.
  change (rows_of ka d (a :: t))
    with (List.length (if String.eqb (ka a) d then a :: filter (fun x => String.eqb (ka x) d) t
                       else filter (fun x => String.eqb (ka x) d) t)).
  fold (rows_of ka d t). unfold rows_of at 1.
  assert (Hrow : List.length (filter (fun c => String.eqb (kc c) d)
                   (map (f a) (filter (fun b => String.eqb (ka a) (kb b)) right)))
                 = if String.eqb (ka a) d then rows_of kb d right else 0%nat).
  { clear IH. unfold rows_of. destruct (String.eqb (ka a) d) eqn:E'.
    - induction right as [|b r IHr]; simpl; [reflexivity|].
      destruct (String.eqb (ka a) (kb b)) eqn:E; simpl.
      + rewrite Hkc, E'. apply String.eqb_eq in E. rewrite <- E, E'.
        simpl. now rewrite IHr.
      + apply String.eqb_eq in E'. subst d. rewrite String.eqb_sym, E. exact IHr.
    - induction right as [|b r IHr]; simpl; [reflexivity|].
      destruct (String.eqb (ka a) (kb b)); simpl; [rewrite Hkc, E'|]; exact IHr. }
  rewrite Hrow. destruct (String.eqb (ka a) d); simpl; fold (rows_of ka d t); lia.
Qed.

(** A row without partner can be left out of either side. *)
Lemma merge_unmatched_left (l1 l2 : list A) (a : A) (right : list B) :
  ~ In (ka a) (map kb right) ->
  merge ka kb f (l1 ++ a :: l2) right = merge ka kb f (l1 ++ l2) right.
Proof.
  intros Hno. unfold merge. rewrite !flat_map_app. simpl.
  replace (filter (fun b => String.eqb (ka a) (kb b)) right) with (@nil B);
    [reflexivity|].
  symmetry. induction right as [|b r IH]; simpl; [reflexivity|].
  simpl in Hno. destruct (String.eqb (ka a) (kb b)) eqn:E.
  - apply String.eqb_eq in E. exfalso. apply Hno. now left.
  - apply IH. intro. apply Hno. now right.
Qed.

Lemma merge_unmatched_right (left : list A) (r1 r2 : list B) (b : B) :
  ~ In (kb b) (map ka left) ->
  merge ka kb f left (r1 ++ b :: r2) = merge ka kb f left (r1 ++ r2).
Proof.
  intros Hno. unfold merge.
  induction left as [|a t IH]; simpl; [reflexivity|].
  simpl in Hno. rewrite IH by (intro; apply Hno; now right).
  f_equal. rewrite !filter_app. simpl.
  destruct (String.eqb (ka a) (kb b)) eqn:E; [|reflexivity].
  apply String.eqb_eq in E. exfalso. apply Hno. now left.
Qed.
End Merge.

Lemma filter_length_all {A : Type} (p : A -> bool) (l : list A) :
  List.length (filter p l) = List.length l <-> forallb p l = true.
Proof.
  induction l as [|h t IH]; simpl; [tauto|].
  pose proof (filter_length_le p t) as Hle.
  destruct (p h); simpl.
  - rewrite <- IH. lia.
  - split; [lia | discriminate].
Qed.

Section GroupingFacts.
Context {R K V : Type} (keqb : K -> K -> bool) (all_keys : list K).
Context (kd : R -> string) (kk : R -> K) (agg : string -> K -> list R -> V).
Hypothesis keqb_eq : forall a b, keqb a b = true <-> a = b.

Lemma in_group_iff (d : string) (c : K) (r : R) :
  in_group keqb kd kk d c r = true <-> kd r = d /\ kk r = c.
Proof. unfold in_group. now rewrite andb_true_iff, String.eqb_eq, keqb_eq. Qed.

Lemma groupby_In (l : list R) (v : V) :
  In v (groupby keqb all_keys kd kk agg l) <->
  exists d c, In c all_keys /\ filter (in_group keqb kd kk d c) l <> []
              /\ v = agg d c (filter (in_group keqb kd kk d c) l).
Proof.
  unfold groupby. rewrite in_flat_map. split.
  - intros [d [Hd Hv]]. apply in_flat_map in Hv. destruct Hv as [c [Hc Hv]].
    exists d, c. split; [assumption|]. unfold one_group in Hv.
    destruct (filter (in_group keqb kd kk d c) l) eqn:E; simpl in Hv; [tauto|].
    destruct Hv as [Hv|[]]. split; [discriminate | now symmetry].
  - intros [d [c [Hc [Hne Hv]]]]. exists d. split.
    + apply group_keys_In.
      destruct (filter (in_group keqb kd kk d c) l) as [|r g] eqn:E; [tauto|].
      assert (Hr : In r (filter (in_group keqb kd kk d c) l)) by (rewrite E; now left).
      apply filter_In in Hr. destruct Hr as [Hr Hg].
      apply in_group_iff in Hg. destruct Hg as [<- _]. now apply in_map.
    + apply in_flat_map. exists c. split; [assumption|]. unfold one_group.
      destruct (filter (in_group keqb kd kk d c) l) eqn:E; [tauto|].
      subst v. now left.
Qed.

(** Every row whose second key is a listed one lies in a group. *)
Lemma groupby_covers (l : list R) (r : R) :
  In r l -> In (kk r) all_keys ->
  In (agg (kd r) (kk r) (filter (in_group keqb kd kk (kd r) (kk r)) l))
     (groupby keqb all_keys kd kk agg l).
Proof.
  intros Hr Hk. apply groupby_In. exists (kd r), (kk r).
  split; [assumption|]. split; [|reflexivity].
  intros E.
  assert (Hin : In r (filter (in_group keqb kd kk (kd r) (kk r)) l)).
  { apply filter_In. split; [assumption|]. now apply in_group_iff. }
  rewrite E in Hin. destruct Hin.
Qed.

Context (gd : V -> string) (gk : V -> K).
Hypothesis gd_agg : forall d c g, gd (agg d c g) = d.
Hypothesis gk_agg : forall d c g, gk (agg d c g) = c.

(** A listed key heads a column of the pivot exactly when some row has it. *)
Lemma groupby_key_occurs (l : list R) (c : K) :
  In c all_keys ->
  existsb (fun g => keqb (gk g) c) (groupby keqb all_keys kd kk agg l)
  = existsb (fun r => keqb (kk r) c) l.
Proof.
  intros Hc. apply eq_true_iff_eq. rewrite !existsb_exists. split.
  - intros [v [Hv E]]. apply groupby_In in Hv.
    destruct Hv as [d [c' [_ [Hne ->]]]]. rewrite gk_agg in E.
    apply keqb_eq in E. subst c'.
    destruct (filter (in_group keqb kd kk d c) l) as [|r g] eqn:Ef; [tauto|].
    assert (Hr : In r (filter (in_group keqb kd kk d c) l)) by (rewrite Ef; now left).
    apply filter_In in Hr. destruct Hr as [Hr Hg].
    apply in_group_iff in Hg. exists r. split; [assumption|].
    apply keqb_eq. tauto.
  - intros [r [Hr E]]. apply keqb_eq in E. subst c.
    eexists. split; [apply (groupby_covers l r); assumption|].
    rewrite gk_agg. now apply keqb_eq.
Qed.

(** The districts of the groups are the districts of the rows. *)
Lemma groupby_districts (l : list R) (d : string) :
  (forall r, In r l -> In (kk r) all_keys) ->
  In d (map gd (groupby keqb all_keys kd kk agg l)) <-> In d (map kd l).
Proof.
  intros Hall. rewrite !in_map_iff. split.
  - intros [v [E Hv]]. apply groupby_In in Hv.
    destruct Hv as [d' [c [_ [Hne ->]]]]. rewrite gd_agg in E. subst d'.
    destruct (filter (in_group keqb kd kk d c) l) as [|r g] eqn:Ef; [tauto|].
    assert (Hr : In r (filter (in_group keqb kd kk d c) l)) by (rewrite Ef; now left).
    apply filter_In in Hr. destruct Hr as [Hr Hg].
    apply in_group_iff in Hg. exists r. tauto.
  - intros [r [E Hr]]. subst d. eexists.
    split; [|apply (groupby_covers l r); auto]. apply gd_agg.
Qed.
End GroupingFacts.

(** * Properties of the district aggregator *)

Lemma combine_map_self {A B : Type} (f : A -> B) (l : list A) :
  combine l (map f l) = map (fun x => (x, f x)) l.
Proof. induction l as [|h t IH]; simpl; [reflexivity | now rewrite IH]. Qed.

Lemma district_table_unfold (complete_data : DataFrame) :
  snd (get_district_aggregates complete_data)
  = (prices <- set_columns price_names (price_table complete_data) ;;
     counts <- set_columns count_names (count_table complete_data) ;;
     Ok (joined complete_data prices counts)).
Proof.
  unfold get_district_aggregates, district_table, with_time, assign_time,
    price_table, tagged_listings. simpl.
  rewrite combine_map_self. reflexivity.
Qed.

Lemma set_columns_Ok {L' V : Type} (names : list string) (f : frame L' V)
    (g : frame string V) :
  set_columns names f = Ok g <->
  List.length names = S (List.length (columns f)) /\ g = mkWide (tl names) (rows f).
Proof.
  unfold set_columns.
  destruct (Nat.eqb_spec (List.length names) (S (List.length (columns f)))) as [E|E].
  - split; [intros [= <-]; auto | intros [_ ->]; reflexivity].
  - split; [discriminate | tauto].
Qed.

Lemma time_of_cases (y : Z) :
  (time_of y = "now" <-> y = 2023) /\ (time_of y = "then" <-> y <> 2023).
Proof.
  unfold time_of. destruct (Z.eqb_spec y 2023) as [E|E].
  - split; split; intros H; auto; [discriminate | contradiction].
  - split; split; intros H; auto; [discriminate | contradiction].
Qed.

Lemma tagged_combo_listed (complete_data : DataFrame) (r : listing * string) :
  In r (tagged_listings complete_data) -> In (tagged_combo r) all_combos.
Proof.
  unfold tagged_listings. rewrite in_map_iff. intros [l [<- _]].
  unfold tagged_combo, time_of; simpl.
  destruct (rental_type l), (year l =? 2023); simpl; tauto.
Qed.

Lemma rooms_listed (b : rooms_bucket) : In b all_buckets.
Proof. destruct b; simpl; tauto. Qed.

Lemma existsb_filter {A : Type} (p : A -> bool) (l : list A) :
  existsb p l = match filter p l with [] => false | _ => true end.
Proof.
  induction l as [|h t IH]; simpl; [reflexivity|].
  destruct (p h); simpl; [reflexivity | exact IH].
Qed.

(** The pairs of the grouped frame, row by row: those of the first district
    in sorted order, then those of the second one, and so on. *)
Lemma grouped_combos (complete_data : DataFrame) :
  map pg_combo (groupby_mean (tagged_listings complete_data))
  = flat_map (combos_of complete_data) (group_keys (map district (records complete_data))).
Proof.
  unfold groupby_mean, groupby.
  replace (map (fun r : listing * string => district (fst r)) (tagged_listings complete_data))
    with (map district (records complete_data))
    by (unfold tagged_listings; now rewrite map_map).
  induction (group_keys (map district (records complete_data))) as [|d ds IH];
    [reflexivity|].
  cbn [flat_map]. rewrite map_app, IH. f_equal.
  unfold combos_of. clear IH.
  induction all_combos as [|c cs IHc]; [reflexivity|].
  cbn [flat_map filter]. rewrite map_app, IHc, existsb_filter. unfold one_group.
  now destruct (filter _ (tagged_listings complete_data)).
Qed.

Lemma price_table_columns (complete_data : DataFrame) :
  columns (price_table complete_data)
  = map (pair "rent_per_square_meter") (price_columns complete_data)
    ++ map (pair "rent_without_expenses") (price_columns complete_data).
Proof.
  unfold price_table, pivot_prices, pivot_multi, price_columns. cbn [columns].
  now rewrite grouped_combos.
Qed.

Lemma all_combos_NoDup : NoDup all_combos.
Proof. repeat constructor; simpl; intuition discriminate. Qed.

Lemma grouped_combo_occurs (complete_data : DataFrame) (c : combo) :
  In c all_combos ->
  existsb (fun g => combo_eqb (pg_combo g) c) (groupby_mean (tagged_listings complete_data))
  = existsb (fun r => combo_eqb (tagged_combo r) c) (tagged_listings complete_data).
Proof.
  intros Hc. unfold groupby_mean.
  apply (groupby_key_occurs combo_eqb all_combos _ tagged_combo _ combo_eqb_eq
           pg_combo); auto.
Qed.

(** Every pair that some listing has heads one price column of each kind. *)
Lemma price_columns_In (complete_data : DataFrame) (c : combo) :
  In c (price_columns complete_data)
  <-> In c all_combos
      /\ existsb (fun r => combo_eqb (tagged_combo r) c) (tagged_listings complete_data)
         = true.
Proof.
  unfold price_columns. rewrite <- grouped_combos.
  rewrite (drop_duplicates_In combo_eqb combo_eqb_eq), in_map_iff.
  split.
  - intros [g [E Hg]].
    assert (Hc : In c all_combos).
    { unfold groupby_mean in Hg. apply groupby_In in Hg; [|exact combo_eqb_eq].
      destruct Hg as [d [c' [Hc' [_ ->]]]]. cbn [pg_combo] in E. now subst c'. }
    split; [exact Hc|].
    rewrite <- grouped_combo_occurs by exact Hc.
    apply existsb_exists. exists g. split; [exact Hg | now apply combo_eqb_eq].
  - intros [Hc Hex].
    rewrite <- grouped_combo_occurs in Hex by exact Hc.
    apply existsb_exists in Hex. destruct Hex as [g [Hg E]].
    exists g. split; [now apply combo_eqb_eq | exact Hg].
Qed.

Lemma price_columns_NoDup (complete_data : DataFrame) :
  NoDup (price_columns complete_data).
Proof. apply drop_duplicates_NoDup, combo_eqb_eq. Qed.

(** The price table has a pair of columns for every pair
    (rental_type, time) that some listing has. *)
Lemma price_table_width (complete_data : DataFrame) :
  List.length (columns (price_table complete_data))
  = (2 * List.length
           (filter (fun c => existsb (fun r => combo_eqb (tagged_combo r) c)
                               (tagged_listings complete_data)) all_combos))%nat.
Proof.
  rewrite price_table_columns, length_app, !length_map.
  rewrite (Permutation_length
             (l' := filter (fun c => existsb (fun r => combo_eqb (tagged_combo r) c)
                                       (tagged_listings complete_data)) all_combos));
    [lia|].
  apply NoDup_Permutation.
  - apply price_columns_NoDup.
  - apply NoDup_filter, all_combos_NoDup.
  - intros c. rewrite price_columns_In, filter_In. reflexivity.
Qed.

Lemma count_table_width (complete_data : DataFrame) :
  columns (count_table complete_data)
  = filter (fun b => existsb (fun l => rooms_eqb (rooms l) b)
                       (listings_2023 complete_data)) all_buckets.
Proof.
  unfold count_table, pivot_counts, map_cells, pivot. cbn [columns].
  apply filter_ext_in. intros b Hb. unfold groupby_count.
  apply (groupby_key_occurs rooms_eqb all_buckets district rooms _ rooms_eqb_eq
           cg_rooms); auto.
Qed.

Lemma price_table_full (complete_data : DataFrame) :
  List.length price_names = S (List.length (columns (price_table complete_data)))
  <-> all_combos_occur complete_data.
Proof.
  rewrite price_table_width.
  change (List.length price_names) with (S (2 * List.length all_combos)).
  split.
  - intros H.
    assert (Hall : forallb (fun c => existsb (fun r => combo_eqb (tagged_combo r) c)
                      (tagged_listings complete_data)) all_combos = true).
    { apply filter_length_all. lia. }
    rewrite forallb_forall in Hall. intros k t Hin.
    specialize (Hall _ Hin). apply existsb_exists in Hall.
    destruct Hall as [r [Hr E]]. apply combo_eqb_eq in E.
    unfold tagged_listings in Hr. apply in_map_iff in Hr.
    destruct Hr as [l [<- Hl]]. unfold tagged_combo in E. simpl in E.
    injection E as E1 E2. exists l. auto.
  - intros H.
    assert (Hall : forallb (fun c => existsb (fun r => combo_eqb (tagged_combo r) c)
                      (tagged_listings complete_data)) all_combos = true).
    { apply forallb_forall. intros [k t] Hin. destruct (H k t Hin) as [l [Hl [Hk Ht]]].
      apply existsb_exists. exists (l, time_of (year l)). split.
      - unfold tagged_listings. apply in_map_iff. eauto.
      - apply combo_eqb_eq. unfold tagged_combo. simpl. congruence. }
    apply filter_length_all in Hall. lia.
Qed.

Lemma count_table_full (complete_data : DataFrame) :
  List.length count_names = S (List.length (columns (count_table complete_data)))
  <-> all_buckets_occur_in_2023 complete_data.
Proof.
  rewrite count_table_width.
  change (List.length count_names) with (S (List.length all_buckets)).
  split.
  - intros H.
    assert (Hall : forallb (fun b => existsb (fun l => rooms_eqb (rooms l) b)
                      (listings_2023 complete_data)) all_buckets = true).
    { apply filter_length_all. lia. }
    rewrite forallb_forall in Hall. intros b.
    specialize (Hall b (rooms_listed b)). apply existsb_exists in Hall.
    destruct Hall as [l [Hl E]]. apply rooms_eqb_eq in E.
    unfold listings_2023 in Hl. apply filter_In in Hl. destruct Hl as [Hl Hy].
    exists l. split; [assumption|]. split; [lia | assumption].
  - intros H.
    assert (Hall : forallb (fun b => existsb (fun l => rooms_eqb (rooms l) b)
                      (listings_2023 complete_data)) all_buckets = true).
    { apply forallb_forall. intros b _. destruct (H b) as [l [Hl [Hy Hb]]].
      apply existsb_exists. exists l. split.
      - unfold listings_2023. apply filter_In. split; [assumption | lia].
      - now apply rooms_eqb_eq. }
    apply filter_length_all in Hall. lia.
Qed.

(** C10.  The district aggregator returns a table exactly when every pair of
    a rental type and a time tag occurs among the listings and every rooms
    bucket occurs among the listings of 2023.  Otherwise one of the two
    assignments of column names raises (the pivoted frame is narrower than the
    list of names), no table is produced and the run ends with that
    exception. *)
Theorem district_aggregator_needs_full_width (complete_data : DataFrame) :
  ((exists out, snd (get_district_aggregates complete_data) = Ok out) <->
   all_combos_occur complete_data /\ all_buckets_occur_in_2023 complete_data)
  /\ (forall e, snd (get_district_aggregates complete_data) = Raise e ->
        (exists w, (e = LengthMismatch w 9 /\ w < 9)%nat
                \/ (e = LengthMismatch w 6 /\ w < 6)%nat)
        /\ forall s, main s complete_data = Raise e).
Proof.
  assert (Hmain : forall e, snd (get_district_aggregates complete_data) = Raise e ->
                    forall s, main s complete_data = Raise e).
  { intros e He s. unfold main.
    destruct (get_district_aggregates complete_data) as [fr res].
    simpl in He. now subst res. }
  rewrite district_table_unfold in *. split; [split|].
  - intros [out H].
    destruct (set_columns price_names (price_table complete_data)) as [p|] eqn:Ep;
      [|discriminate].
    destruct (set_columns count_names (count_table complete_data)) as [c|] eqn:Ec;
      [|discriminate].
    apply set_columns_Ok in Ep, Ec. split.
    + apply price_table_full. tauto.
    + apply count_table_full. tauto.
  - intros [Hp Hc].
    apply price_table_full in Hp. apply count_table_full in Hc.
    unfold set_columns. rewrite Hp, Hc, !Nat.eqb_refl. simpl. eauto.
  - intros e He. split; [|now apply Hmain]. revert He. unfold set_columns.
    rewrite price_table_width, count_table_width.
    pose proof (filter_length_le
                  (fun c => existsb (fun r => combo_eqb (tagged_combo r) c)
                              (tagged_listings complete_data)) all_combos) as Hp.
    pose proof (filter_length_le
                  (fun b => existsb (fun l => rooms_eqb (rooms l) b)
                              (listings_2023 complete_data)) all_buckets) as Hc.
    change (List.length all_combos) with 4%nat in Hp.
    change (List.length all_buckets) with 5%nat in Hc.
    change (List.length price_names) with 9%nat.
    change (List.length count_names) with 6%nat.
    remember (List.length (filter (fun c => existsb (fun r => combo_eqb (tagged_combo r) c)
                (tagged_listings complete_data)) all_combos)) as wp.
    remember (List.length (filter (fun b => existsb (fun l => rooms_eqb (rooms l) b)
                (listings_2023 complete_data)) all_buckets)) as wc.
    destruct (Nat.eqb_spec 9 (S (2 * wp))) as [E|E]; cbn [bind].
    + destruct (Nat.eqb_spec 6 (S wc)) as [E'|E']; cbn [bind]; [discriminate|].
      intros [= <-]. exists (S wc). right. split; [reflexivity | lia].
    + intros [= <-]. exists (S (2 * wp)). left. split; [reflexivity | lia].
Qed.

Lemma district_aggregator_needs_full_width_witness :
  all_combos_occur sample /\ all_buckets_occur_in_2023 sample.
Proof.
  apply (proj1 (district_aggregator_needs_full_width sample)).
  eexists. vm_compute. reflexivity.
Defined.

(** C5.  The district aggregator writes a [time] column with one tag per
    listing, and the tag of a listing is "now" if and only if its year is
    2023, and "then" otherwise. *)
Theorem time_tag_now_iff_year_2023 (complete_data : DataFrame) :
  exists col,
    time (fst (get_district_aggregates complete_data)) = Some col
    /\ List.length col = List.length (records complete_data)
    /\ forall i l t,
         nth_error (records complete_data) i = Some l ->
         nth_error col i = Some t ->
         (t = "now" <-> year l = 2023) /\ (t = "then" <-> year l <> 2023).
Proof.
  exists (map (fun l => time_of (year l)) (records complete_data)).
  split; [reflexivity|]. split; [apply length_map|].
  intros i l t Hl Ht.
  rewrite nth_error_map, Hl in Ht. simpl in Ht. injection Ht as <-.
  apply time_of_cases.
Qed.

Lemma time_tag_now_iff_year_2023_witness :
  exists col,
    time (fst (get_district_aggregates sample)) = Some col
    /\ nth_error col 2 = Some "now" /\ nth_error col 3 = Some "then".
Proof.
  destruct (time_tag_now_iff_year_2023 sample) as [col [Hcol _]].
  exists col. split; [exact Hcol|].
  simpl in Hcol. injection Hcol as <-. split; reflexivity.
Defined.

(** C7, as stated, fails: the district aggregator does not leave the frame
    it is given unchanged, the frame comes back with a [time] column. *)
Lemma district_aggregator_changes_frame :
  fst (get_district_aggregates sample) <> sample.
Proof. unfold get_district_aggregates, assign_time, sample. simpl. discriminate. Qed.

(** C7, amended.  The district aggregator changes the shared frame only by
    writing the [time] column, the listings stay as they were; the street
    aggregator does not read that column, so it returns the same table on the
    frame as the district aggregator left it as on the original frame, and
    that is the street table of a whole run. *)
Theorem street_output_unaffected_by_district_run (s : sorter)
    (complete_data : DataFrame) (n : Z) :
  records (fst (get_district_aggregates complete_data)) = records complete_data
  /\ time (fst (get_district_aggregates complete_data))
     = Some (map (fun l => time_of (year l)) (records complete_data))
  /\ get_street_aggregates s (fst (get_district_aggregates complete_data)) n
     = get_street_aggregates s complete_data n
  /\ main s complete_data
     = (district_data <- snd (get_district_aggregates complete_data) ;;
        street_data <- get_street_aggregates s complete_data 5 ;;
        Ok (district_data, street_data)).
Proof. repeat split. Qed.

(** The index of the frames that are joined. *)
Lemma named_keys {V : Type} (f : frame string V) :
  map fst (named f) = map fst (rows f).
Proof. unfold named. rewrite map_map. reflexivity. Qed.

Lemma map_cells_keys {L' V W : Type} (g : V -> W) (f : frame L' V) :
  map fst (rows (map_cells g f)) = map fst (rows f).
Proof. unfold map_cells. simpl. rewrite map_map. reflexivity. Qed.

Lemma drop_columns_keys {V : Type} (names : list string) (f : frame string V) :
  map fst (rows (drop_columns names f)) = map fst (rows f).
Proof. unfold drop_columns. simpl. rewrite map_map. reflexivity. Qed.

Lemma price_table_keys (complete_data : DataFrame) (d : string) :
  In d (map fst (rows (price_table complete_data)))
  <-> In d (map district (records complete_data)).
Proof.
  unfold price_table, pivot_prices, pivot_multi. cbn [rows].
  rewrite !map_map. cbn [fst]. rewrite map_id, group_keys_In.
  unfold groupby_mean.
  rewrite (groupby_districts combo_eqb all_combos _ tagged_combo _ combo_eqb_eq
             pg_district); auto.
  - unfold tagged_listings. rewrite map_map. reflexivity.
  - apply tagged_combo_listed.
Qed.

Lemma price_table_keys_NoDup (complete_data : DataFrame) :
  NoDup (map fst (rows (price_table complete_data))).
Proof.
  unfold price_table, pivot_prices, pivot_multi. cbn [rows].
  rewrite !map_map. cbn [fst]. rewrite map_id. apply group_keys_NoDup.
Qed.

Lemma count_table_keys (complete_data : DataFrame) (d : string) :
  In d (map fst (rows (count_table complete_data)))
  <-> In d (map district (listings_2023 complete_data)).
Proof.
  unfold count_table, pivot_counts. rewrite map_cells_keys.
  unfold pivot. cbn [rows]. rewrite map_map. cbn [fst]. rewrite map_id, group_keys_In.
  unfold groupby_count.
  apply (groupby_districts rooms_eqb all_buckets district rooms _ rooms_eqb_eq
           cg_district); auto.
  intros r _. apply rooms_listed.
Qed.

Lemma count_table_keys_NoDup (complete_data : DataFrame) :
  NoDup (map fst (rows (count_table complete_data))).
Proof.
  unfold count_table, pivot_counts. rewrite map_cells_keys.
  unfold pivot. cbn [rows]. rewrite map_map. cbn [fst]. rewrite map_id.
  apply group_keys_NoDup.
Qed.

Lemma district_table_Ok (complete_data : DataFrame) (out : list district_row) :
  snd (get_district_aggregates complete_data) = Ok out ->
  out = joined complete_data
          (mkWide (tl price_names) (rows (price_table complete_data)))
          (mkWide (tl count_names) (rows (count_table complete_data))).
Proof.
  rewrite district_table_unfold. intros H.
  destruct (set_columns price_names (price_table complete_data)) as [p|] eqn:Ep;
    [|discriminate].
  destruct (set_columns count_names (count_table complete_data)) as [c|] eqn:Ec;
    [|discriminate].
  apply set_columns_Ok in Ep, Ec. destruct Ep as [_ ->], Ec as [_ ->].
  simpl in H. now injection H as <-.
Qed.

Lemma join_counts_keys {P C : Type} (prices : list (string * P))
    (counts : list (string * C)) (d : string) :
  In d (map fst (join_counts prices counts))
  <-> In d (map fst prices) /\ In d (map fst counts).
Proof.
  unfold join_counts. rewrite !in_map_iff. split.
  - intros [x [E Hx]]. apply merge_In in Hx.
    destruct Hx as [a [b [Ha [Hb [Hk ->]]]]]. simpl in E. subst d.
    split; [exists a; auto | exists b; auto].
  - intros [[a [Ea Ha]] [b [Eb Hb]]]. exists (fst a, (snd a, snd b)).
    split; [assumption|]. apply merge_In. exists a, b. repeat split; auto; congruence.
Qed.

Lemma join_geometry_keys (district_data : list counted_row)
    (geometries : list (string * string)) (d : string) :
  In d (map dr_district (join_geometry district_data geometries))
  <-> In d (map fst district_data) /\ In d (map fst geometries).
Proof.
  unfold join_geometry. rewrite !in_map_iff. split.
  - intros [x [E Hx]]. apply merge_In in Hx.
    destruct Hx as [a [b [Ha [Hb [Hk ->]]]]]. simpl in E. subst d.
    split; [exists a; auto | exists b; auto].
  - intros [[a [Ea Ha]] [b [Eb Hb]]].
    exists (mkDistrict (fst a) (fst (snd a)) (snd (snd a)) (snd b)).
    split; [assumption|]. apply merge_In. exists a, b. repeat split; auto; congruence.
Qed.

(** The districts of the table that is written: those in the price table, in
    the room-count table and in the listing table. *)
Lemma district_table_districts (complete_data : DataFrame) (out : list district_row)
    (d : string) :
  snd (get_district_aggregates complete_data) = Ok out ->
  In d (map dr_district out) <->
  In d (map fst (rows (price_table complete_data)))
  /\ In d (map fst (rows (count_table complete_data)))
  /\ In d (map district (records complete_data)).
Proof.
  intros H. apply district_table_Ok in H. subst out. unfold joined.
  rewrite join_geometry_keys, join_counts_keys, !named_keys, !map_cells_keys,
    drop_columns_keys. cbn [rows].
  unfold district_geometry.
  assert (Hg : In d (map fst (drop_duplicates pair_eqb
                       (map (fun l => (district l, geometry l)) (records complete_data))))
               <-> In d (map district (records complete_data))).
  { rewrite !in_map_iff. split.
    - intros [x [E Hx]]. rewrite (drop_duplicates_In pair_eqb pair_eqb_eq) in Hx.
      apply in_map_iff in Hx. destruct Hx as [l [<- Hl]]. exists l. auto.
    - intros [l [E Hl]]. exists (district l, geometry l). split; [assumption|].
      apply (drop_duplicates_In pair_eqb pair_eqb_eq).
      apply in_map_iff. exists l. auto. }
  rewrite Hg. tauto.
Qed.

(** C8.  The join of the price table with the room-count table keeps a
    district only if both tables have it: a district missing on either side
    has no row in the result, no exception is raised for it, and the result
    is the one obtained without the unmatched row.  In a run that returns a
    table, a district of the price table without listing in 2023, hence
    without row in the room-count table, is absent from that table. *)
Theorem unmatched_district_is_dropped :
  (forall (P C : Type) (prices : list (string * P)) (counts : list (string * C)) d,
      ~ In d (map fst prices) \/ ~ In d (map fst counts) ->
      ~ In d (map fst (join_counts prices counts)))
  /\ (forall (P C : Type) (p1 p2 : list (string * P)) (x : string * P)
        (counts : list (string * C)),
      ~ In (fst x) (map fst counts) ->
      join_counts (p1 ++ x :: p2) counts = join_counts (p1 ++ p2) counts)
  /\ (forall (P C : Type) (prices : list (string * P)) (c1 c2 : list (string * C))
        (y : string * C),
      ~ In (fst y) (map fst prices) ->
      join_counts prices (c1 ++ y :: c2) = join_counts prices (c1 ++ c2))
  /\ (forall complete_data out d,
      snd (get_district_aggregates complete_data) = Ok out ->
      In d (map fst (rows (price_table complete_data))) ->
      (forall l, In l (records complete_data) -> district l = d -> year l <> 2023) ->
      ~ In d (map fst (rows (count_table complete_data)))
      /\ ~ In d (map dr_district out)).
Proof.
  split; [|split; [|split]].
  - intros P C prices counts d H Hin. apply join_counts_keys in Hin. tauto.
  - intros P C p1 p2 x counts H. unfold join_counts. now apply merge_unmatched_left.
  - intros P C prices c1 c2 y H. unfold join_counts. now apply merge_unmatched_right.
  - intros complete_data out d Hout Hprice Hyear.
    assert (Hno : ~ In d (map fst (rows (count_table complete_data)))).
    { rewrite count_table_keys, in_map_iff. intros [l [E Hl]].
      unfold listings_2023 in Hl. apply filter_In in Hl. destruct Hl as [Hl Hy].
      apply (Hyear l Hl E). lia. }
    split; [assumption|].
    rewrite (district_table_districts complete_data out d Hout). tauto.
Qed.

Lemma unmatched_district_is_dropped_witness :
  exists out,
    snd (get_district_aggregates sample) = Ok out
    /\ In "Hasle" (map fst (rows (price_table sample)))
    /\ ~ In "Hasle" (map fst (rows (count_table sample)))
    /\ ~ In "Hasle" (map dr_district out).
Proof.
  destruct (snd (get_district_aggregates sample)) as [out|e] eqn:E;
    [|vm_compute in E; discriminate].
  exists out. split; [reflexivity|].
  assert (Hin : In "Hasle" (map fst (rows (price_table sample)))).
  { vm_compute. tauto. }
  split; [exact Hin|].
  destruct unmatched_district_is_dropped as [_ [_ [_ H]]].
  apply (H sample out "Hasle" E Hin).
  intros l Hl Hd. simpl in Hl.
  repeat (destruct Hl as [<- | Hl]; [simpl in Hd |- *; try discriminate; try lia|]).
  destruct Hl.
Defined.

Lemma mem_ext (d : string) (l l' : list string) :
  (In d l <-> In d l') -> mem d l = mem d l'.
Proof. intros H. apply eq_true_iff_eq. now rewrite !mem_In. Qed.

Lemma district_geometry_keys (complete_data : DataFrame) (d : string) :
  In d (map fst (district_geometry complete_data))
  <-> In d (map district (records complete_data)).
Proof.
  unfold district_geometry. rewrite !in_map_iff. split.
  - intros [x [E Hx]]. rewrite (drop_duplicates_In pair_eqb pair_eqb_eq) in Hx.
    apply in_map_iff in Hx. destruct Hx as [l [<- Hl]]. exists l. auto.
  - intros [l [E Hl]]. exists (district l, geometry l). split; [assumption|].
    apply (drop_duplicates_In pair_eqb pair_eqb_eq).
    apply in_map_iff. exists l. auto.
Qed.

Lemma district_geometry_NoDup (complete_data : DataFrame) :
  one_geometry_per_district complete_data ->
  NoDup (map fst (district_geometry complete_data)).
Proof.
  intros Hone. apply NoDup_map_NoDup_ForallPairs.
  - intros x y Hx Hy E. unfold district_geometry in Hx, Hy.
    rewrite (drop_duplicates_In pair_eqb pair_eqb_eq) in Hx, Hy.
    apply in_map_iff in Hx, Hy.
    destruct Hx as [l [<- Hl]], Hy as [l' [<- Hl']]. simpl in E.
    now rewrite E, (Hone l l' Hl Hl' E).
  - apply drop_duplicates_NoDup, pair_eqb_eq.
Qed.

(** The number of rows a district has in the table that is written. *)
Lemma district_table_rows_of (complete_data : DataFrame) (out : list district_row)
    (d : string) :
  snd (get_district_aggregates complete_data) = Ok out ->
  rows_of dr_district d out
  = (rows_of fst d (rows (price_table complete_data))
     * rows_of fst d (rows (count_table complete_data))
     * rows_of fst d (district_geometry complete_data))%nat.
Proof.
  intros H. apply district_table_Ok in H. subst out.
  unfold joined, join_geometry, join_counts.
  rewrite (merge_rows_of _ _ _ dr_district) by reflexivity.
  rewrite (merge_rows_of _ _ _ fst) by reflexivity.
  unfold named, map_cells, drop_columns, rows_of. cbn [rows].
  rewrite !map_map. cbn [fst].
  assert (Hmap : forall (A B : Type) (g : string * A -> string * B) (l : list (string * A)),
             (forall r, fst (g r) = fst r) ->
             List.length (filter (fun a => String.eqb (fst a) d) (map g l))
             = List.length (filter (fun a => String.eqb (fst a) d) l)).
  { intros A B g l Hg. induction l as [|h t IH]; simpl; [reflexivity|].
    rewrite Hg. destruct (String.eqb (fst h) d); simpl; now rewrite IH. }
  rewrite !Hmap by reflexivity. reflexivity.
Qed.

(** C6, as stated, fails: a district whose listings carry two different
    geometry strings gets two rows. *)
Lemma two_rows_for_one_district :
  exists out,
    snd (get_district_aggregates two_geometries) = Ok out
    /\ rows_of dr_district "Centrum" out = 2%nat.
Proof. eexists. split; [vm_compute; reflexivity | reflexivity]. Qed.

(** C6, amended.  When every district has one geometry among the listings
    and the aggregator returns a table, the table has exactly one row for
    every district that has a listing in 2023, and no row for any other
    district. *)
Theorem one_row_per_district_with_one_geometry (complete_data : DataFrame)
    (out : list district_row) (d : string) :
  one_geometry_per_district complete_data ->
  snd (get_district_aggregates complete_data) = Ok out ->
  rows_of dr_district d out
  = if mem d (map district (listings_2023 complete_data)) then 1%nat else 0%nat.
Proof.
  intros Hone Hout. rewrite (district_table_rows_of _ _ _ Hout).
  rewrite (rows_of_NoDup fst d _ (price_table_keys_NoDup complete_data)).
  rewrite (rows_of_NoDup fst d _ (count_table_keys_NoDup complete_data)).
  rewrite (rows_of_NoDup fst d _ (district_geometry_NoDup complete_data Hone)).
  rewrite (mem_ext d _ _ (price_table_keys complete_data d)).
  rewrite (mem_ext d _ _ (count_table_keys complete_data d)).
  rewrite (mem_ext d _ _ (district_geometry_keys complete_data d)).
  destruct (mem d (map district (listings_2023 complete_data))) eqn:E2023;
    [|now destruct (mem d (map district (records complete_data)))].
  assert (Hall : mem d (map district (records complete_data)) = true).
  { apply mem_In. apply mem_In in E2023. apply in_map_iff in E2023.
    destruct E2023 as [l [E Hl]]. unfold listings_2023 in Hl.
    apply filter_In in Hl. apply in_map_iff. exists l. tauto. }
  now rewrite Hall.
Qed.

Lemma one_row_per_district_with_one_geometry_witness :
  exists out,
    snd (get_district_aggregates sample) = Ok out
    /\ rows_of dr_district "Centrum" out = 1%nat
    /\ rows_of dr_district "Viby" out = 1%nat
    /\ rows_of dr_district "Hasle" out = 0%nat.
Proof.
  destruct (snd (get_district_aggregates sample)) as [out|e] eqn:E;
    [|vm_compute in E; discriminate].
  assert (Hone : one_geometry_per_district sample).
  { intros l l' Hl Hl' Hd. simpl in Hl, Hl'.
    repeat (destruct Hl as [<- | Hl]; [|try contradiction]);
    repeat (destruct Hl' as [<- | Hl']; [|try contradiction]);
    simpl in Hd |- *; try reflexivity; discriminate. }
  exists out. split; [reflexivity|].
  repeat split;
    exact (one_row_per_district_with_one_geometry sample out _ Hone E).
Defined.

(** ** The room counts *)

Lemma find_app {A : Type} (p : A -> bool) (l l' : list A) :
  find p (l ++ l') = match find p l with Some x => Some x | None => find p l' end.
Proof.
  induction l as [|h t IH]; simpl; [reflexivity|]. now destruct (p h).
Qed.

Lemma find_flat_map_none {A B : Type} (p : B -> bool) (f : A -> list B) (ks : list A) :
  (forall x, In x ks -> find p (f x) = None) -> find p (flat_map f ks) = None.
Proof.
  induction ks as [|a t IH]; simpl; intros H; [reflexivity|].
  rewrite find_app, (H a) by now left. apply IH. intros x Hx. apply H. now right.
Qed.

Lemma find_flat_map_key {A B : Type} (p : B -> bool) (f : A -> list B) (ks : list A)
    (k : A) :
  (forall x y : A, {x = y} + {x <> y}) ->
  In k ks ->
  (forall x, In x ks -> x <> k -> find p (f x) = None) ->
  find p (flat_map f ks) = find p (f k).
Proof.
  intros dec. induction ks as [|a t IH]; simpl; intros Hin Hother; [contradiction|].
  rewrite find_app. destruct (dec a k) as [->|Hne].
  - destruct (find p (f k)) eqn:E; [reflexivity|].
    apply find_flat_map_none. intros x Hx.
    destruct (dec x k) as [->|Hx']; [assumption|]. apply Hother; auto.
  - rewrite (Hother a) by auto. destruct Hin as [Hin|Hin]; [contradiction|].
    apply IH; auto.
Qed.

Section GroupLookup.
Context {R K V : Type} (keqb : K -> K -> bool) (all_keys : list K).
Context (kd : R -> string) (kk : R -> K) (agg : string -> K -> list R -> V).
Context (gd : V -> string) (gk : V -> K).
Hypothesis keqb_eq : forall a b, keqb a b = true <-> a = b.
Hypothesis gd_agg : forall d c g, gd (agg d c g) = d.
Hypothesis gk_agg : forall d c g, gk (agg d c g) = c.

Lemma find_one_group (l : list R) (d d' : string) (c c' : K) :
  find (in_group keqb gd gk d c) (one_group keqb kd kk agg l d' c')
  = if String.eqb d' d && keqb c' c
    then match filter (in_group keqb kd kk d' c') l with
         | [] => None
         | g => Some (agg d' c' g)
         end
    else None.
Proof.
  unfold one_group.
  destruct (filter (in_group keqb kd kk d' c') l) as [|r g]; simpl.
  - now destruct (String.eqb d' d && keqb c' c).
  - unfold in_group at 1. rewrite gd_agg, gk_agg.
    now destruct (String.eqb d' d && keqb c' c).
Qed.

(** The cell of the pivot for district [d] and key [c]: the aggregate of the
    rows of that district and key, if there are any. *)
Lemma find_groupby (l : list R) (d : string) (c : K) :
  In c all_keys ->
  find (in_group keqb gd gk d c) (groupby keqb all_keys kd kk agg l)
  = match filter (in_group keqb kd kk d c) l with
    | [] => None
    | g => Some (agg d c g)
    end.
Proof.
  intros Hc. unfold groupby.
  assert (Kdec : forall x y : K, {x = y} + {x <> y}).
  { intros x y. destruct (keqb x y) eqn:E.
    - left. now apply keqb_eq.
    - right. intros H. apply keqb_eq in H. congruence. }
  assert (Hinner : forall d',
             find (in_group keqb gd gk d c)
               (flat_map (one_group keqb kd kk agg l d') all_keys)
             = if String.eqb d' d
               then match filter (in_group keqb kd kk d c) l with
                    | [] => None
                    | g => Some (agg d c g)
                    end
               else None).
  { intros d'. destruct (String.eqb d' d) eqn:E.
    - apply String.eqb_eq in E. subst d'.
      rewrite (find_flat_map_key _ _ _ c Kdec Hc).
      + rewrite find_one_group, String.eqb_refl.
        assert (Hcc : keqb c c = true) by now apply keqb_eq.
        now rewrite Hcc.
      + intros x _ Hx. rewrite find_one_group.
        destruct (keqb x c) eqn:Ex; [apply keqb_eq in Ex; contradiction|].
        now rewrite andb_false_r.
    - apply find_flat_map_none. intros x _. rewrite find_one_group, E. reflexivity. }
  destruct (in_dec string_dec d (group_keys (map kd l))) as [Hd|Hd].
  - rewrite (find_flat_map_key _ _ _ d string_dec Hd).
    + rewrite Hinner, String.eqb_refl. reflexivity.
    + intros x _ Hx. rewrite Hinner.
      destruct (String.eqb x d) eqn:E; [apply String.eqb_eq in E; contradiction|].
      reflexivity.
  - rewrite find_flat_map_none.
    + destruct (filter (in_group keqb kd kk d c) l) as [|r g] eqn:E; [reflexivity|].
      exfalso. apply Hd. apply group_keys_In.
      assert (Hr : In r (filter (in_group keqb kd kk d c) l)) by (rewrite E; now left).
      apply filter_In in Hr. destruct Hr as [Hr Hg].
      apply (in_group_iff keqb kd kk keqb_eq) in Hg. destruct Hg as [<- _].
      now apply in_map.
    + intros x Hx. rewrite Hinner.
      destruct (String.eqb x d) eqn:E; [|reflexivity].
      apply String.eqb_eq in E. subst x. contradiction.
Qed.
End GroupLookup.

Lemma filter_all {A : Type} (p : A -> bool) (l : list A) :
  List.length (filter p l) = List.length l -> filter p l = l.
Proof.
  intros H. apply filter_length_all in H. rewrite forallb_forall in H.
  induction l as [|h t IH]; simpl; [reflexivity|].
  rewrite (H h) by now left. f_equal. apply IH. intros x Hx. apply H. now right.
Qed.

Lemma buckets_partition (l : list listing) (d : string) :
  Zsum (map (fun b => count (filter (in_group rooms_eqb district rooms d b) l)) all_buckets)
  = count (filter (fun r => String.eqb (district r) d) l).
Proof.
  unfold count, all_buckets, Zsum, in_group.
  induction l as [|h t IH]; [reflexivity|].
  cbn [map fold_right filter] in IH |- *.
  destruct (String.eqb (district h) d); cbn [andb].
  - destruct (rooms h); cbn [rooms_eqb List.length]; lia.
  - exact IH.
Qed.

Lemma fst_combine {A B : Type} (l : list A) (l' : list B) :
  List.length l = List.length l' -> map fst (combine l l') = l.
Proof.
  revert l'. induction l as [|h t IH]; intros [|h' t']; simpl; try discriminate;
    [reflexivity|]. intros [= E]. now rewrite IH.
Qed.

Lemma snd_combine {A B : Type} (l : list A) (l' : list B) :
  List.length l = List.length l' -> map snd (combine l l') = l'.
Proof.
  revert l'. induction l as [|h t IH]; intros [|h' t']; simpl; try discriminate;
    [reflexivity|]. intros [= E]. now rewrite IH.
Qed.

(** What the room-count columns of a row add up to: the number of listings of
    2023 in the district, whatever their rental type. *)
Lemma room_counts_sum (complete_data : DataFrame) (out : list district_row)
    (row : district_row) :
  snd (get_district_aggregates complete_data) = Ok out ->
  In row out ->
  map fst (dr_counts row) = tl count_names
  /\ room_count_sum row = count (counted_listings complete_data (dr_district row)).
Proof.
  intros Hout Hrow.
  assert (Hw : List.length count_names
               = S (List.length (columns (count_table complete_data)))).
  { rewrite district_table_unfold in Hout.
    destruct (set_columns price_names (price_table complete_data)); [|discriminate].
    destruct (set_columns count_names (count_table complete_data)) as [c|] eqn:Ec;
      [|discriminate].
    apply set_columns_Ok in Ec. tauto. }
  assert (Hcols : columns (count_table complete_data) = all_buckets).
  { rewrite count_table_width in Hw |- *. apply filter_all.
    change (List.length count_names) with (S (List.length all_buckets)) in Hw. lia. }
  apply district_table_Ok in Hout. subst out.
  unfold joined, join_geometry in Hrow. apply merge_In in Hrow.
  destruct Hrow as [a [g [Ha [_ [_ ->]]]]]. cbn [dr_counts dr_district].
  unfold join_counts in Ha. apply merge_In in Ha.
  destruct Ha as [p [c [_ [Hc [Hk ->]]]]]. cbn [fst snd].
  unfold named, map_cells in Hc. cbn [rows columns] in Hc.
  rewrite map_map in Hc. apply in_map_iff in Hc. destruct Hc as [r [<- Hr]].
  cbn [fst snd] in Hk |- *. rewrite Hk.
  unfold count_table, pivot_counts, map_cells, pivot in Hr. cbn [rows] in Hr.
  rewrite map_map in Hr. apply in_map_iff in Hr. destruct Hr as [d [<- _]].
  cbn [fst snd].
  change (filter (fun c => existsb (fun g0 => rooms_eqb (cg_rooms g0) c)
                           (groupby_count (listings_2023 complete_data))) all_buckets)
    with (columns (count_table complete_data)).
  rewrite Hcols. unfold room_count_sum. cbn [dr_counts].
  rewrite !map_map. split.
  - apply fst_combine. now rewrite length_map.
  - rewrite snd_combine by (now rewrite length_map).
    unfold counted_listings.
    rewrite <- buckets_partition. f_equal.
    apply map_ext_in. intros b Hb. unfold groupby_count.
    rewrite (find_groupby rooms_eqb all_buckets district rooms _ cg_district cg_rooms
               rooms_eqb_eq) by (auto using rooms_listed).
    destruct (filter (in_group rooms_eqb district rooms d b)
                (listings_2023 complete_data)); [reflexivity|].
    cbn [fillna0 option_map cg_count]. unfold count. now rewrite length_map.
Qed.

(** C1 at a table with a room let in 2023.  The district Centrum of [sample]
    has two apartment listings of 2023 and one room listing of 2023; its room
    counts add up to three, the room included, where the claim has two. *)
Theorem room_counts_include_room_listings :
  exists out row,
    snd (get_district_aggregates sample) = Ok out
    /\ In row out
    /\ dr_district row = "Centrum"
    /\ dr_counts row = [("apartments_w_1_room", 2); ("apartments_w_2_rooms", 1);
                        ("apartments_w_3_rooms", 0); ("apartments_w_4_rooms", 0);
                        ("apartments_w_+4_rooms", 0)]
    /\ room_count_sum row = 3
    /\ count (apartments_2023 sample "Centrum") = 2
    /\ count (counted_listings sample "Centrum") = 3.
Proof.
  eexists. eexists. split; [vm_compute; reflexivity|].
  split; [left; reflexivity|]. repeat split.
Qed.

(** * Properties of the street aggregator *)

Lemma In_firstn {A : Type} (k : nat) (l : list A) (x : A) :
  In x (firstn k l) -> In x l.
Proof.
  revert l. induction k as [|k IH]; intros [|h t]; simpl; try tauto.
  intros [H|H]; auto.
Qed.

Lemma In_head {A : Type} (n : Z) (l : list A) (x : A) : In x (head n l) -> In x l.
Proof. unfold head. destruct (0 <=? n); apply In_firstn. Qed.



Lemma length_head {A : Type} (n : Z) (l : list A) :
  0 <= n -> Z.of_nat (List.length (head n l)) = Z.min n (Z.of_nat (List.length l)).
Proof.
  intros Hn. unfold head.
  destruct (Z.leb_spec 0 n) as [_|H]; [|lia].
  rewrite length_firstn. lia.
Qed.

Lemma similar_streets_unfold (s : sorter) (street_data : list street_row) (n : Z)
    (target : street_row) :
  similar_streets s street_data n target
  = map fst (head n (sort_values s (other_streets street_data target))).
Proof. reflexivity. Qed.

Lemma similar_streets_In (s : sorter) (street_data : list street_row) (n : Z)
    (target x : street_row) :
  In x (similar_streets s street_data n target) ->
  In x street_data /\ sr_street x <> sr_street target.
Proof.
  rewrite similar_streets_unfold, in_map_iff. intros [p [<- Hp]].
  apply In_head in Hp.
  apply (Permutation_in _ (sort_values_perm s _)) in Hp.
  unfold other_streets in Hp. apply in_map_iff in Hp. destruct Hp as [o [<- Ho]].
  apply filter_In in Ho. destruct Ho as [Ho Hne]. simpl. split; [assumption|].
  apply negb_true_iff, String.eqb_neq in Hne. assumption.
Qed.


Lemma others_length (street_data : list street_row) (target : street_row) :
  NoDup (map sr_street street_data) -> In target street_data ->
  List.length (other_streets street_data target) = (List.length street_data - 1)%nat.
Proof.
  intros Hnd Hin. unfold other_streets. rewrite length_map.
  pose proof (filter_length (fun o => String.eqb (sr_street o) (sr_street target))
                street_data) as Hsplit.
  pose proof (rows_of_NoDup sr_street (sr_street target) street_data Hnd) as Hone.
  unfold rows_of in Hone.
  assert (Hmem : mem (sr_street target) (map sr_street street_data) = true).
  { apply mem_In. now apply in_map. }
  rewrite Hmem in Hone. cbv beta in Hsplit. lia.
Qed.

Lemma similar_streets_length (s : sorter) (street_data : list street_row) (n : Z)
    (target : street_row) :
  NoDup (map sr_street street_data) -> In target street_data -> 0 <= n ->
  Z.of_nat (List.length (similar_streets s street_data n target))
  = Z.min n (Z.of_nat (List.length street_data) - 1).
Proof.
  intros Hnd Hin Hn. rewrite similar_streets_unfold, length_map, length_head by assumption.
  rewrite (Permutation_length (sort_values_perm s _)), others_length by assumption.
  assert (List.length street_data <> 0%nat)
    by (destruct street_data; [contradiction | discriminate]).
  lia.
Qed.

Lemma street_means_streets (complete_data : DataFrame) :
  map sr_street (street_means complete_data)
  = group_keys (map street
      (filter (fun l => rental_eqb (rental_type l) apartment)
         (filter (fun l => year l =? 2023) (records complete_data)))).
Proof.
  unfold street_means, groupby_street_mean. rewrite map_map. simpl. apply map_id.
Qed.

Lemma street_means_NoDup (complete_data : DataFrame) :
  NoDup (map sr_street (street_means complete_data)).
Proof. rewrite street_means_streets. apply group_keys_NoDup. Qed.

(** C4.  For every table, every street S of the street table and every
    number N of similar streets asked for (N >= 0), the list of similar
    streets computed for S does not contain S and has
    min(N, number of streets - 1) entries. *)
Theorem similar_streets_exclude_self (s : sorter) (complete_data : DataFrame) (n : Z)
    (target : street_row) :
  In target (street_means complete_data) ->
  0 <= n ->
  ~ In (sr_street target)
       (map sr_street (similar_streets s (street_means complete_data) n target))
  /\ Z.of_nat (List.length (similar_streets s (street_means complete_data) n target))
     = Z.min n (Z.of_nat (List.length (street_means complete_data)) - 1).
Proof.
  intros Hin Hn. split.
  - rewrite in_map_iff. intros [x [E Hx]].
    apply similar_streets_In in Hx. tauto.
  - apply similar_streets_length; auto using street_means_NoDup.
Qed.

Lemma similar_streets_exclude_self_witness :
  ~ In "Bakken"
       (map sr_street (similar_streets stable_sorter (street_means six_streets) 3
                         (mkStreet "Bakken" (106#1) (8000#1))))
  /\ Z.of_nat (List.length (similar_streets stable_sorter (street_means six_streets) 3
                              (mkStreet "Bakken" (106#1) (8000#1))))
     = Z.min 3 (Z.of_nat (List.length (street_means six_streets)) - 1).
Proof.
  apply (similar_streets_exclude_self stable_sorter six_streets 3
           (mkStreet "Bakken" (106#1) (8000#1))).
  - right. left. reflexivity.
  - lia.
Defined.

(** ** The order of the similar streets *)

Lemma by_abs_diff_trans : Relations_1.Transitive by_abs_diff.
Proof. intros a b c. unfold by_abs_diff. apply Qle_trans. Qed.

(** When the keys are pairwise different there is one sorted arrangement, so
    that every sort returns it. *)
Lemma sorted_unique (l l' : list (street_row * Q)) :
  Permutation l l' ->
  StronglySorted by_abs_diff l ->
  StronglySorted (fun a b => (snd a < snd b)%Q) l' ->
  l = l'.
Proof.
  revert l. induction l' as [|b t' IH]; intros l Hp Hs Hs'.
  - now apply Permutation_nil, Permutation_sym.
  - destruct l as [|a t];
      [apply Permutation_nil_cons in Hp; contradiction|].
    apply StronglySorted_inv in Hs, Hs'.
    destruct Hs as [Hs Ha], Hs' as [Hs' Hb].
    rewrite Forall_forall in Ha, Hb.
    assert (E : a = b).
    { pose proof (Permutation_in a Hp (in_eq a t)) as Hab.
      pose proof (Permutation_in b (Permutation_sym Hp) (in_eq b t')) as Hba.
      destruct Hab as [Hab|Hab]; [now symmetry|].
      destruct Hba as [Hba|Hba]; [assumption|].
      specialize (Ha b Hba). specialize (Hb a Hab). unfold by_abs_diff in Ha.
      exfalso. apply (Qlt_not_le _ _ Hb Ha). }
    subst b. f_equal. apply IH; auto.
    now apply Permutation_cons_inv in Hp.
Qed.

Lemma sort_values_unique (s : sorter) (l : list (street_row * Q)) :
  StronglySorted (fun a b => (snd a < snd b)%Q) (insertion_sort l) ->
  sort_values s l = insertion_sort l.
Proof.
  intros Hstrict. apply sorted_unique; [| |assumption].
  - eapply Permutation_trans; [apply sort_values_perm|].
    apply Permutation_sym, insertion_sort_perm.
  - apply Sorted_StronglySorted; [apply by_abs_diff_trans | apply sort_values_sorted].
Qed.

(** The default sort on [many_streets], seen from Aagade.  The twenty other
    rows are one range of more than 17 entries, so that it is partitioned:
    the pivot is the middle row, Klostergade (difference 4); the scan from the
    left stops at Engvej, which is not below the pivot, the scan from the
    right runs down to the same place, and the pivot is exchanged with Engvej,
    which thereby lands behind it. *)
Example quicksort_on_many_streets :
  Argsort.argsort
    (map snd (other_streets (street_means many_streets) (mkStreet "Aagade" (100#1) (8000#1))))
  = Some [0; 1; 2; 9; 3; 4; 5; 6; 7; 8; 10; 11; 12; 13; 14; 15; 16; 17; 18; 19]%nat
  /\ map sr_street
       (similar_streets quicksort_sorter (street_means many_streets) 5
          (mkStreet "Aagade" (100#1) (8000#1)))
     = ["Bakken"; "Carl Blochs Gade"; "Dalgas Avenue"; "Klostergade"; "Engvej"].
Proof. split; vm_compute; reflexivity. Qed.

(** Up to 17 other streets the default sort is an insertion sort, which keeps
    rows of equal difference in their order: the list of Aagade in
    [six_streets] has Engvej (98) before Skovvej (102). *)
Example quicksort_on_six_streets :
  map sr_street
    (similar_streets quicksort_sorter (street_means six_streets) 5
       (mkStreet "Aagade" (100#1) (8000#1)))
  = ["Engvej"; "Skovvej"; "Bakken"; "Torvet"; "Nygade"].
Proof. vm_compute. reflexivity. Qed.


(** With a stable sort the list of [six_streets] is the same as with the
    default one. *)
Example stable_sort_keeps_row_order :
  map sr_street
    (similar_streets stable_sorter (street_means six_streets) 5
       (mkStreet "Aagade" (100#1) (8000#1)))
  = ["Engvej"; "Skovvej"; "Bakken"; "Torvet"; "Nygade"].
Proof. vm_compute. reflexivity. Qed.


(** ** The width of the unpacked frames *)

Lemma width_constant {A : Type} (lists : list (list A)) (w : nat) :
  lists <> [] -> Forall (fun l => List.length l = w) lists -> width lists = w.
Proof.
  intros Hne Hall. induction Hall as [|l t Hl Ht IH]; [contradiction|].
  simpl. rewrite Hl. destruct t as [|l' t'].
  - simpl. lia.
  - rewrite IH by discriminate. lia.
Qed.

Lemma unpack_raises {A : Type} (names : list string) (lists : list (list A)) (w : nat) :
  lists <> [] -> Forall (fun l => List.length l = w) lists -> w <> List.length names ->
  unpack names lists = Raise (ColumnsPassed (List.length names) w).
Proof.
  intros Hne Hall Hw. unfold unpack. destruct lists as [|l t]; [contradiction|].
  rewrite (width_constant (l :: t) w Hne Hall).
  destruct (Nat.eqb_spec w (List.length names)); [contradiction | reflexivity].
Qed.

Lemma most_similar_lengths (s : sorter) (street_data : list street_row) (n : Z) :
  NoDup (map sr_street street_data) -> 0 <= n ->
  Forall (fun l => List.length l
                   = Z.to_nat (Z.min n (Z.of_nat (List.length street_data) - 1)))
         (most_similar s street_data n).
Proof.
  intros Hnd Hn. unfold most_similar. apply Forall_forall. intros l Hl.
  apply in_map_iff in Hl. destruct Hl as [target [<- Hin]].
  pose proof (similar_streets_length s street_data n target Hnd Hin Hn). lia.
Qed.

(** Unless the lists have five entries, [pd.DataFrame] is given five column
    names for rows of another width and raises. *)
Lemma similar_rent_prices_raises (s : sorter) (street_data : list street_row) (n : Z) :
  NoDup (map sr_street street_data) -> street_data <> [] -> 0 <= n ->
  Z.min n (Z.of_nat (List.length street_data) - 1) <> 5 ->
  similar_rent_prices s street_data n
  = Raise (ColumnsPassed 5 (Z.to_nat (Z.min n (Z.of_nat (List.length street_data) - 1)))).
Proof.
  intros Hnd Hne Hn Hw. unfold similar_rent_prices.
  rewrite (unpack_raises new_columns_streets _
             (Z.to_nat (Z.min n (Z.of_nat (List.length street_data) - 1)))).
  - reflexivity.
  - unfold most_similar. destruct street_data; [contradiction | discriminate].
  - apply Forall_forall. intros l Hl. apply in_map_iff in Hl.
    destruct Hl as [l' [<- Hl']]. rewrite length_map.
    pose proof (most_similar_lengths s street_data n Hnd Hn) as Hall.
    rewrite Forall_forall in Hall. now apply Hall.
  - change (List.length new_columns_streets) with 5%nat.
    assert (List.length street_data <> 0%nat)
      by (destruct street_data; [contradiction | discriminate]).
    lia.
Qed.

Lemma get_street_aggregates_unfold (s : sorter) (complete_data : DataFrame) (n : Z) :
  get_street_aggregates s complete_data n
  = (street_data <- similar_rent_prices s (street_means complete_data) n ;;
     Ok (street_join complete_data street_data)).
Proof. reflexivity. Qed.

Lemma unpack_rows {A : Type} (names : list string) (lists : list (list A))
    (rows : list (list (string * option A))) :
  unpack names lists = Ok rows ->
  rows = map (fun l => combine names (pad (List.length names) l)) lists.
Proof.
  unfold unpack. destruct lists as [|l t]; [now intros [= <-]|].
  remember (l :: t) as lists.
  destruct (width lists =? List.length names)%nat eqn:E; [|discriminate].
  apply Nat.eqb_eq in E. rewrite E. now intros [= <-].
Qed.

Lemma fst_combine_le {A B : Type} (l : list A) (l' : list B) :
  (List.length l <= List.length l')%nat -> map fst (combine l l') = l.
Proof.
  revert l'. induction l as [|h t IH]; intros [|h' t']; simpl; intros H;
    try reflexivity; [lia|]. rewrite IH; [reflexivity | lia].
Qed.

(** Whatever N, the rows of a frame that [similar_rent_prices] returns have
    the five columns most_similar_1 to most_similar_5 and the five columns
    most_similar_rent_1 to most_similar_rent_5. *)
Lemma similar_columns_are_five (s : sorter) (street_data : list street_row) (n : Z)
    (rows : list similar_row) (x : similar_row) :
  similar_rent_prices s street_data n = Ok rows -> In x rows ->
  map fst (sim_streets x) = new_columns_streets
  /\ map fst (sim_rents x) = new_columns_rents.
Proof.
  unfold similar_rent_prices. intros H Hx.
  destruct (unpack new_columns_streets _) as [us|] eqn:Eus; [|discriminate].
  destruct (unpack new_columns_rents _) as [ur|] eqn:Eur; [|discriminate].
  simpl in H. injection H as <-.
  apply unpack_rows in Eus, Eur.
  apply in_map_iff in Hx. destruct Hx as [[r [u u']] [<- Hr]]. simpl.
  apply in_combine_r in Hr.
  pose proof (in_combine_l _ _ _ _ Hr) as Hu.
  pose proof (in_combine_r _ _ _ _ Hr) as Hu'.
  rewrite Eus in Hu. rewrite Eur in Hu'.
  apply in_map_iff in Hu, Hu'.
  destruct Hu as [l [<- _]], Hu' as [l' [<- _]].
  split; apply fst_combine_le; unfold pad; rewrite length_app, length_map, repeat_length; lia.
Qed.

(** C3 at the example of the specification and at a short table.  The column
    names are built from [range(5)], not from N.  With four streets and N = 2
    the lists have two entries and the construction of the frame raises
    (the claim has two columns of each kind); with four streets and N = 5 the
    lists have three entries and it raises as well (the claim has five
    columns, the last two empty). *)
Theorem five_columns_whatever_n (s : sorter) :
  List.length new_columns_streets = 5%nat
  /\ List.length new_columns_rents = 5%nat
  /\ get_street_aggregates s four_streets 2 = Raise (ColumnsPassed 5 2)
  /\ get_street_aggregates s four_streets 5 = Raise (ColumnsPassed 5 3).
Proof.
  split; [reflexivity|]. split; [reflexivity|].
  rewrite !get_street_aggregates_unfold.
  rewrite !similar_rent_prices_raises;
    try (apply street_means_NoDup); try discriminate; try lia;
    try (vm_compute; discriminate).
  split; reflexivity.
Qed.

(** ** The street means and counts *)

Lemma filter_filter {A : Type} (p q : A -> bool) (l : list A) :
  filter p (filter q l) = filter (fun x => q x && p x) l.
Proof.
  induction l as [|h t IH]; simpl; [reflexivity|].
  destruct (q h); simpl; [destruct (p h)|]; now rewrite IH.
Qed.

Lemma street_listings_eq (complete_data : DataFrame) (k : string) :
  filter (fun l => String.eqb (street l) k) (apartments_of_2023 complete_data)
  = street_listings complete_data k.
Proof.
  unfold apartments_of_2023, street_listings.
  rewrite (filter_filter (fun l => rental_eqb (rental_type l) apartment)
             (fun l => year l =? 2023)).
  now rewrite filter_filter.
Qed.

Lemma similar_rent_prices_rows (s : sorter) (street_data : list street_row) (n : Z)
    (rows : list similar_row) (x : similar_row) :
  similar_rent_prices s street_data n = Ok rows -> In x rows ->
  In (sim_row x) street_data.
Proof.
  unfold similar_rent_prices. intros H Hx.
  destruct (unpack new_columns_streets _) as [us|]; [|discriminate].
  destruct (unpack new_columns_rents _) as [ur|]; [|discriminate].
  simpl in H. injection H as <-.
  apply in_map_iff in Hx. destruct Hx as [[r u] [<- Hr]]. simpl.
  now apply in_combine_l in Hr.
Qed.

(** C9.  The street aggregator keeps the listings of 2023 that are
    apartments.  In the table it returns, the row of a street reports the
    arithmetic means of rent_per_square_meter and of rent_without_expenses
    over exactly the listings of that street that are apartments of 2023 (there
    is at least one), and their number as count. *)
Theorem street_row_aggregates_2023_apartments (s : sorter) (complete_data : DataFrame)
    (n : Z) (out : list street_aggregate) (r : street_aggregate) :
  get_street_aggregates s complete_data n = Ok out ->
  In r out ->
  let g := street_listings complete_data (sa_street r) in
  g <> []
  /\ (forall l, In l g <->
        In l (records complete_data) /\ year l = 2023 /\ rental_type l = apartment
        /\ street l = sa_street r)
  /\ (sa_rent_per_square_meter r
      == Qsum (map rent_per_square_meter g) / inject_Z (Z.of_nat (List.length g)))%Q
  /\ (sa_rent_without_expenses r
      == Qsum (map rent_without_expenses g) / inject_Z (Z.of_nat (List.length g)))%Q
  /\ sa_count r = Z.of_nat (List.length g).
Proof.
  rewrite get_street_aggregates_unfold. intros Hout Hr.
  destruct (similar_rent_prices s (street_means complete_data) n) as [rows|] eqn:Erows;
    [|discriminate].
  simpl in Hout. injection Hout as <-.
  unfold street_join in Hr. apply merge_In in Hr.
  destruct Hr as [a [geo [Ha [_ [_ ->]]]]].
  apply merge_In in Ha. destruct Ha as [x [c [Hx [Hc [Hk ->]]]]].
  cbn [sa_street sa_rent_per_square_meter sa_rent_without_expenses sa_count fst snd].
  apply (similar_rent_prices_rows s _ n rows x Erows) in Hx.
  unfold street_means, groupby_street_mean in Hx.
  fold (apartments_of_2023 complete_data) in Hx.
  apply in_map_iff in Hx. destruct Hx as [k [Ek Hkey]].
  unfold groupby_street_count in Hc. apply in_map_iff in Hc.
  destruct Hc as [k' [<- _]]. rewrite <- Ek in Hk |- *. simpl in Hk. subst k'.
  cbn [sr_street sr_sqm sr_rent snd]. rewrite street_listings_eq.
  split; [|split; [|split; [|split]]].
  - apply group_keys_In, in_map_iff in Hkey. destruct Hkey as [l [E Hl]].
    intros Hnil.
    assert (Hin : In l (street_listings complete_data k)).
    { rewrite <- street_listings_eq. apply filter_In.
      split; [assumption | now apply String.eqb_eq]. }
    rewrite Hnil in Hin. destruct Hin.
  - intros l. unfold street_listings.
    rewrite filter_In, !andb_true_iff, Z.eqb_eq, rental_eqb_eq, String.eqb_eq. tauto.
  - unfold mean. rewrite length_map. apply Qred_correct.
  - unfold mean. rewrite length_map. apply Qred_correct.
  - unfold count. now rewrite length_map.
Qed.

Lemma street_row_aggregates_2023_apartments_witness :
  exists out r,
    get_street_aggregates stable_sorter six_streets 5 = Ok out
    /\ In r out
    /\ sa_street r = "Torvet"
    /\ List.length (street_listings six_streets "Torvet") = 1%nat
    /\ (sa_rent_per_square_meter r == 131 # 1)%Q
    /\ sa_count r = 1.
Proof.
  pose (out := match get_street_aggregates stable_sorter six_streets 5 with
               | Ok o => o
               | Raise _ => []
               end).
  pose (r := nth 5 out (mkAggregate "" 0 0 [] [] 0 "")).
  assert (E : get_street_aggregates stable_sorter six_streets 5 = Ok out)
    by (vm_compute; reflexivity).
  assert (Hin : In r out) by (vm_compute; tauto).
  destruct (street_row_aggregates_2023_apartments stable_sorter six_streets 5 out r E Hin)
    as [_ [_ [Hsqm [_ Hcount]]]].
  exists out, r. split; [exact E|]. split; [exact Hin|].
  split; [reflexivity|]. split; [reflexivity|].
  split; [exact Hsqm | exact Hcount].
Defined.

(** * Further properties of the district aggregator *)


Lemma count_columns_full (complete_data : DataFrame) (out : list district_row) :
  snd (get_district_aggregates complete_data) = Ok out ->
  columns (count_table complete_data) = all_buckets.
Proof.
  rewrite district_table_unfold. intros Hout.
  destruct (set_columns price_names (price_table complete_data)) as [p|] eqn:Ep;
    [|discriminate].
  destruct (set_columns count_names (count_table complete_data)) as [c|] eqn:Ec;
    [|discriminate].
  apply set_columns_Ok in Ec. destruct Ec as [Ec _].
  rewrite count_table_width in Ec |- *. apply filter_all.
  change (List.length count_names) with (S (List.length all_buckets)) in Ec. lia.
Qed.


(** The cells of the row of a district in a table that the district aggregator
    returns: the names are given by position to the columns of the price
    pivot, which stand in the order of [price_columns]. *)
Lemma district_row_cells (complete_data : DataFrame) (out : list district_row)
    (r : district_row) :
  snd (get_district_aggregates complete_data) = Ok out ->
  In r out ->
  let d := dr_district r in
  let cell c := find (in_group combo_eqb pg_district pg_combo d c)
                     (groupby_mean (tagged_listings complete_data)) in
  (forall c1 c2 c3 c4, price_columns complete_data = [c1; c2; c3; c4] ->
   dr_prices r
   = [("apartment_rent_sqm_now", option_map round1 (option_map pg_sqm (cell c1)));
      ("apartment_rent_sqm_then", option_map round1 (option_map pg_sqm (cell c2)));
      ("room_rent_now", option_map round1 (option_map pg_rent (cell c3)));
      ("room_rent_then", option_map round1 (option_map pg_rent (cell c4)))])
  /\ dr_counts r
     = combine (tl count_names)
         (map (fun b => fillna0 (option_map cg_count
                 (find (in_group rooms_eqb cg_district cg_rooms d b)
                       (groupby_count (listings_2023 complete_data)))))
              all_buckets).
Proof.
  intros Hout Hr.
  pose proof (count_columns_full complete_data out Hout) as Hcc.
  apply district_table_Ok in Hout. subst out.
  unfold joined, join_geometry in Hr. apply merge_In in Hr.
  destruct Hr as [a [g [Ha [_ [_ ->]]]]]. cbn [dr_prices dr_counts dr_district].
  unfold join_counts in Ha. apply merge_In in Ha.
  destruct Ha as [p [c [Hp [Hc [Hk ->]]]]]. cbn [fst snd].
  split.
  - intros c1 c2 c3 c4 Hpc.
    unfold named, map_cells, drop_columns in Hp. cbn [rows columns] in Hp.
    rewrite !map_map in Hp. apply in_map_iff in Hp. destruct Hp as [r0 [<- Hr0]].
    cbn [fst snd].
    unfold price_table, pivot_prices in Hr0. cbn [rows] in Hr0.
    apply in_map_iff in Hr0. destruct Hr0 as [r1 [<- Hr1]]. cbn [fst snd].
    unfold pivot_multi in Hr1. cbn [rows] in Hr1.
    rewrite grouped_combos in Hr1.
    change (drop_duplicates combo_eqb
              (flat_map (combos_of complete_data)
                 (group_keys (map district (records complete_data)))))
      with (price_columns complete_data) in Hr1.
    rewrite Hpc in Hr1. apply in_map_iff in Hr1. destruct Hr1 as [d [<- _]].
    reflexivity.
  - unfold named, map_cells in Hc. cbn [rows columns] in Hc.
    rewrite map_map in Hc. apply in_map_iff in Hc. destruct Hc as [r0 [<- Hr0]].
    cbn [fst snd] in Hk |- *. rewrite Hk.
    unfold count_table, pivot_counts, map_cells, pivot in Hr0, Hcc.
    cbn [rows columns] in Hr0, Hcc. rewrite Hcc in Hr0.
    rewrite map_map in Hr0. apply in_map_iff in Hr0. destruct Hr0 as [d [<- _]].
    cbn [fst snd]. rewrite !map_map. reflexivity.
Qed.






(** In [aaby_first] the pair (room, now) occurs first, so that the column
    named apartment_rent_sqm_now holds the mean of the room listings of 2023:
    50 for Aaby, and NaN for Viby, whose apartments of 2023 (mean 111.7) are
    found under apartment_rent_sqm_then. *)
Example prices_under_other_names :
  price_columns aaby_first
  = [(room, "now"); (apartment, "now"); (apartment, "then"); (room, "then")]
  /\ exists out,
       snd (get_district_aggregates aaby_first) = Ok out
       /\ map (fun r => (dr_district r, map snd (dr_prices r))) out
          = [("Aaby", [Some (50 # 1); None; None; None]);
             ("Centrum", [Some (200 # 1); Some (305 # 2); Some (7000 # 1); None]);
             ("Viby", [None; Some (1117 # 10); None; Some (2500 # 1)])].
Proof.
  split; [vm_compute; reflexivity|].
  eexists. split; vm_compute; reflexivity.
Qed.


(** X2.  In a table that the district aggregator returns, every row has the
    five count columns apartments_w_1_room to apartments_w_+4_rooms, in this
    order, and each holds the number of listings of 2023 of the district with
    that rooms bucket, of whatever rental type; it is 0 where there is
    none. *)
Theorem district_counts_per_bucket (complete_data : DataFrame)
    (out : list district_row) (r : district_row) :
  snd (get_district_aggregates complete_data) = Ok out ->
  In r out ->
  let n b := count (bucket_listings complete_data (dr_district r) b) in
  dr_counts r
  = [("apartments_w_1_room", n rooms_1); ("apartments_w_2_rooms", n rooms_2);
     ("apartments_w_3_rooms", n rooms_3); ("apartments_w_4_rooms", n rooms_4);
     ("apartments_w_+4_rooms", n rooms_over_4)]
  /\ Forall (fun c => 0 <= snd c) (dr_counts r).
Proof.
  intros Hout Hr. cbv zeta.
  destruct (district_row_cells complete_data out r Hout Hr) as [_ Hc].
  assert (Hcell : forall b,
             fillna0 (option_map cg_count
               (find (in_group rooms_eqb cg_district cg_rooms (dr_district r) b)
                     (groupby_count (listings_2023 complete_data))))
             = count (bucket_listings complete_data (dr_district r) b)).
  { intros b. unfold groupby_count.
    rewrite (find_groupby rooms_eqb all_buckets district rooms _ cg_district cg_rooms
               rooms_eqb_eq) by (auto using rooms_listed).
    change (filter _ (listings_2023 complete_data))
      with (bucket_listings complete_data (dr_district r) b).
    destruct (bucket_listings complete_data (dr_district r) b); [reflexivity|].
    cbn [fillna0 option_map cg_count]. unfold count. now rewrite length_map. }
  assert (Heq : dr_counts r
     = [("apartments_w_1_room", count (bucket_listings complete_data (dr_district r) rooms_1));
        ("apartments_w_2_rooms", count (bucket_listings complete_data (dr_district r) rooms_2));
        ("apartments_w_3_rooms", count (bucket_listings complete_data (dr_district r) rooms_3));
        ("apartments_w_4_rooms", count (bucket_listings complete_data (dr_district r) rooms_4));
        ("apartments_w_+4_rooms",
         count (bucket_listings complete_data (dr_district r) rooms_over_4))]).
  { rewrite Hc. cbn [map all_buckets]. rewrite !Hcell. reflexivity. }
  split; [exact Heq|].
  rewrite Heq. unfold count. repeat constructor; cbn [snd]; lia.
Qed.

Lemma district_counts_per_bucket_witness :
  exists out r,
    snd (get_district_aggregates sample) = Ok out
    /\ In r out
    /\ dr_district r = "Viby"
    /\ map snd (dr_counts r) = [0; 0; 1; 1; 1].
Proof.
  pose (out := match snd (get_district_aggregates sample) with
               | Ok o => o
               | Raise _ => []
               end).
  pose (r := nth 1 out (mkDistrict "" [] [] "")).
  assert (E : snd (get_district_aggregates sample) = Ok out) by (vm_compute; reflexivity).
  assert (Hin : In r out) by (vm_compute; tauto).
  exists out, r. split; [exact E|]. split; [exact Hin|]. split; [reflexivity|].
  rewrite (proj1 (district_counts_per_bucket sample out r E Hin)).
  vm_compute. reflexivity.
Defined.



(** X4.  A returned district table has a row of district [d] with geometry
    [g] exactly when [d] has a listing in 2023 and some listing of [d], of any
    year, carries the geometry [g]: the geometry is passed through from the
    listings, and a district gets one row per distinct geometry string. *)
Theorem district_rows_pair_district_and_geometry (complete_data : DataFrame)
    (out : list district_row) (d g : string) :
  snd (get_district_aggregates complete_data) = Ok out ->
  (exists r, In r out /\ dr_district r = d /\ dr_geometry r = g) <->
  In d (map district (listings_2023 complete_data))
  /\ exists l, In l (records complete_data) /\ district l = d /\ geometry l = g.
Proof.
  intros Hout.
  pose proof (district_table_districts complete_data out d Hout) as Hkeys.
  apply district_table_Ok in Hout. subst out. unfold joined in *. split.
  - intros [r [Hr [Hd Hg]]]. split.
    + apply count_table_keys. apply Hkeys. apply in_map_iff. eauto.
    + unfold join_geometry in Hr. apply merge_In in Hr.
      destruct Hr as [a [geo [_ [Hgeo [Hk ->]]]]]. cbn [dr_district dr_geometry] in Hd, Hg.
      unfold district_geometry in Hgeo.
      rewrite (drop_duplicates_In pair_eqb pair_eqb_eq) in Hgeo.
      apply in_map_iff in Hgeo. destruct Hgeo as [l [<- Hl]]. simpl in Hk, Hg.
      exists l. repeat split; congruence.
  - intros [H2023 [l [Hl [Hd Hg]]]].
    assert (Hall : In d (map district (records complete_data))).
    { apply in_map_iff. eauto. }
    assert (Ha : In d (map fst
                   (join_counts
                      (named (map_cells (option_map round1)
                         (drop_columns dropped_names
                            (mkWide (tl price_names) (rows (price_table complete_data))))))
                      (named (map_cells fillna0
                         (mkWide (tl count_names) (rows (count_table complete_data)))))))).
    { apply join_counts_keys.
      rewrite !named_keys, !map_cells_keys, drop_columns_keys. cbn [rows].
      split; [now apply price_table_keys | now apply count_table_keys]. }
    apply in_map_iff in Ha. destruct Ha as [a [Ea Ha]].
    exists (mkDistrict (fst a) (fst (snd a)) (snd (snd a)) g).
    split; [|split; [exact Ea | reflexivity]].
    unfold join_geometry. apply merge_In. exists a, (d, g).
    split; [exact Ha|]. split; [|split; [exact Ea | reflexivity]].
    unfold district_geometry. apply (drop_duplicates_In pair_eqb pair_eqb_eq).
    apply in_map_iff. exists l. split; [congruence | assumption].
Qed.

Lemma district_rows_pair_district_and_geometry_witness :
  exists out r,
    snd (get_district_aggregates two_geometries) = Ok out
    /\ In r out /\ dr_district r = "Centrum" /\ dr_geometry r = "POLYGON C2".
Proof.
  pose (out := match snd (get_district_aggregates two_geometries) with
               | Ok o => o
               | Raise _ => []
               end).
  assert (E : snd (get_district_aggregates two_geometries) = Ok out)
    by (vm_compute; reflexivity).
  destruct (proj2 (district_rows_pair_district_and_geometry two_geometries out
                     "Centrum" "POLYGON C2" E)) as [r Hr].
  - split; [vm_compute; tauto|].
    eexists. split; [left; reflexivity|]. split; reflexivity.
  - exists out, r. split; [exact E | exact Hr].
Defined.

(** ** The order of the rows *)

Lemma string_le_iff (a b : string) :
  string_le a b <-> a = b \/ OrderedTypeEx.String_as_OT.lt a b.
Proof.
  unfold string_le, String.leb.
  pose proof (OrderedTypeEx.String_as_OT.cmp_eq a b) as Heq.
  pose proof (OrderedTypeEx.String_as_OT.cmp_lt a b) as Hlt.
  pose proof (OrderedTypeEx.String_as_OT.cmp_lt b a) as Hgt.
  pose proof (OrderedTypeEx.String_as_OT.cmp_antisym b a) as Hanti.
  unfold OrderedTypeEx.String_as_OT.cmp in *.
  destruct (String.compare a b) eqn:E.
  - split; [intros _; left; now apply Heq | reflexivity].
  - split; [intros _; right; now apply Hlt | reflexivity].
  - split; [discriminate|]. intros [H|H].
    + apply Heq in H. discriminate.
    + apply Hlt in H. discriminate.
Qed.

Lemma string_le_refl (a : string) : string_le a a.
Proof. apply string_le_iff. now left. Qed.

Lemma string_le_trans (a b c : string) :
  string_le a b -> string_le b c -> string_le a c.
Proof.
  rewrite !string_le_iff. intros [->|Hab] [->|Hbc]; auto.
  right. eapply OrderedTypeEx.String_as_OT.lt_trans; eassumption.
Qed.

Lemma group_keys_sorted (keys : list string) :
  StronglySorted string_le (group_keys keys).
Proof.
  unfold group_keys. apply KeySort.StronglySorted_sort.
  intros a b c. apply string_le_trans.
Qed.

Section MergeOrder.
Context {A B C : Type} (ka : A -> string) (kb : B -> string) (f : A -> B -> C).
Context (kc : C -> string).
Hypothesis kc_f : forall a b, kc (f a b) = ka a.

Lemma merge_keys_left (left : list A) (right : list B) (k : string) :
  In k (map kc (merge ka kb f left right)) -> In k (map ka left).
Proof.
  rewrite !in_map_iff. intros [c [<- Hc]]. apply merge_In in Hc.
  destruct Hc as [a [b [Ha [_ [_ ->]]]]]. exists a. split; [now rewrite kc_f | assumption].
Qed.

(** A join keeps the rows in the order of its left side. *)
Lemma merge_sorted (left : list A) (right : list B) :
  StronglySorted string_le (map ka left) ->
  StronglySorted string_le (map kc (merge ka kb f left right)).
Proof.
  induction left as [|a t IH]; intros Hs; [constructor|].
  simpl in Hs. apply StronglySorted_inv in Hs. destruct Hs as [Hs Ha].
  specialize (IH Hs). unfold merge in *. simpl. rewrite map_app.
  assert (Hrest : Forall (string_le (ka a))
                    (map kc (flat_map
                       (fun a0 => map (f a0) (filter (fun b => String.eqb (ka a0) (kb b)) right))
                       t))).
  { apply Forall_forall. intros k Hk. rewrite Forall_forall in Ha. apply Ha.
    now apply (merge_keys_left t right). }
  induction (filter (fun b => String.eqb (ka a) (kb b)) right) as [|b r IHr]; simpl;
    [exact IH|].
  constructor; [exact IHr|].
  apply Forall_app. split; [|now rewrite kc_f].
  apply Forall_forall. intros k Hk. apply in_map_iff in Hk.
  destruct Hk as [c [<- Hc]]. apply in_map_iff in Hc. destruct Hc as [b' [<- _]].
  rewrite !kc_f. apply string_le_refl.
Qed.
End MergeOrder.

Lemma price_table_index (complete_data : DataFrame) :
  map fst (rows (price_table complete_data))
  = group_keys (map pg_district (groupby_mean (tagged_listings complete_data))).
Proof.
  unfold price_table, pivot_prices, pivot_multi. cbn [rows].
  rewrite !map_map. cbn [fst]. apply map_id.
Qed.

(** X5.  The rows of a returned district table are in ascending order of the
    district name. *)
Theorem district_rows_in_ascending_order (complete_data : DataFrame)
    (out : list district_row) :
  snd (get_district_aggregates complete_data) = Ok out ->
  StronglySorted string_le (map dr_district out).
Proof.
  intros Hout. apply district_table_Ok in Hout. subst out.
  unfold joined, join_geometry, join_counts.
  apply (merge_sorted _ _ _ dr_district); [reflexivity|].
  apply (merge_sorted _ _ _ fst); [reflexivity|].
  rewrite named_keys, map_cells_keys, drop_columns_keys. cbn [rows].
  rewrite price_table_index. apply group_keys_sorted.
Qed.

Lemma district_rows_in_ascending_order_witness :
  exists out,
    snd (get_district_aggregates two_geometries) = Ok out
    /\ map dr_district out = ["Centrum"; "Centrum"; "Viby"]
    /\ StronglySorted string_le (map dr_district out).
Proof.
  pose (out := match snd (get_district_aggregates two_geometries) with
               | Ok o => o
               | Raise _ => []
               end).
  assert (E : snd (get_district_aggregates two_geometries) = Ok out)
    by (vm_compute; reflexivity).
  exists out. split; [exact E|]. split; [reflexivity|].
  exact (district_rows_in_ascending_order two_geometries out E).
Defined.

(** ** Repeated runs and exceptions *)

(** The district aggregator overwrites a [time] column that the frame
    already has: its result does not depend on such a column, and a second
    run on the frame that the first run left behind returns the same table
    and leaves the frame as it is. *)
Lemma district_run_is_idempotent :
  (forall (listings : list listing) (col : option (list string)),
      get_district_aggregates (mkFrame listings col)
      = get_district_aggregates (mkFrame listings None))
  /\ (forall complete_data : DataFrame,
        get_district_aggregates (fst (get_district_aggregates complete_data))
        = get_district_aggregates complete_data).
Proof. split; [intros listings col | intros [listings col]]; reflexivity. Qed.

(** X6.  Which exception the district aggregator raises.  When only k < 4 of
    the pairs (rental_type, time) occur, the assignment of the nine price
    column names fails on a frame of 1 + 2k columns, whether or not rooms
    buckets are missing too; when all pairs occur but only m < 5 rooms buckets
    occur in 2023, the assignment of the six count column names fails on a
    frame of 1 + m columns.  On a table without listings it is the first
    assignment that fails, on a frame with the district column alone. *)
Theorem district_aggregator_exception (complete_data : DataFrame) :
  let k := List.length (occurring_combos complete_data) in
  let m := List.length (occurring_buckets complete_data) in
  (k <> 4%nat ->
   snd (get_district_aggregates complete_data) = Raise (LengthMismatch (S (2 * k)) 9))
  /\ (k = 4%nat -> m <> 5%nat ->
      snd (get_district_aggregates complete_data) = Raise (LengthMismatch (S m) 6))
  /\ (records complete_data = [] ->
      snd (get_district_aggregates complete_data) = Raise (LengthMismatch 1 9)).
Proof.
  cbv zeta. rewrite district_table_unfold. unfold set_columns.
  rewrite price_table_width, count_table_width.
  fold (occurring_combos complete_data). fold (occurring_buckets complete_data).
  change (List.length price_names) with 9%nat.
  change (List.length count_names) with 6%nat.
  remember (List.length (occurring_combos complete_data)) as k eqn:Ek.
  remember (List.length (occurring_buckets complete_data)) as m eqn:Em.
  split; [|split].
  - intros Hk. destruct (Nat.eqb_spec 9 (S (2 * k))) as [E|E]; [lia | reflexivity].
  - intros Hk Hm. destruct (Nat.eqb_spec 9 (S (2 * k))) as [E|E]; [|lia].
    cbn [bind]. destruct (Nat.eqb_spec 6 (S m)) as [E'|E']; [lia | reflexivity].
  - intros Hnil.
    assert (Hk0 : k = 0%nat).
    { subst k. unfold occurring_combos, tagged_listings. rewrite Hnil. reflexivity. }
    subst k. rewrite Hk0. reflexivity.
Qed.

Lemma district_aggregator_exception_witness :
  snd (get_district_aggregates four_streets) = Raise (LengthMismatch 3 9)
  /\ snd (get_district_aggregates (mkFrame [] None)) = Raise (LengthMismatch 1 9).
Proof.
  split.
  - apply (proj1 (district_aggregator_exception four_streets)). vm_compute. discriminate.
  - apply (proj2 (proj2 (district_aggregator_exception (mkFrame [] None)))). reflexivity.
Defined.

(** * Further properties of the street aggregator *)

Lemma length_head_any {A : Type} (n : Z) (l : list A) :
  List.length (head n l) = head_length n (List.length l).
Proof. unfold head, head_length. destruct (0 <=? n); rewrite length_firstn; lia. Qed.

Lemma similar_streets_length_any (s : sorter) (street_data : list street_row) (n : Z)
    (target : street_row) :
  NoDup (map sr_street street_data) -> In target street_data ->
  List.length (similar_streets s street_data n target)
  = head_length n (List.length street_data - 1).
Proof.
  intros Hnd Hin. rewrite similar_streets_unfold, length_map, length_head_any.
  now rewrite (Permutation_length (sort_values_perm s _)), others_length.
Qed.

Lemma unpack_returns {A : Type} (names : list string) (lists : list (list A)) :
  Forall (fun l => List.length l = List.length names) lists ->
  unpack names lists = Ok (map (fun l => combine names (map Some l)) lists).
Proof.
  intros Hall. unfold unpack. destruct lists as [|l t]; [reflexivity|].
  rewrite (width_constant (l :: t) (List.length names)) by (auto; discriminate).
  rewrite Nat.eqb_refl. f_equal. apply map_ext_in. intros x Hx.
  rewrite Forall_forall in Hall. unfold pad.
  rewrite (Hall x Hx), Nat.sub_diag. simpl. now rewrite app_nil_r.
Qed.

Lemma combine_map_map {A B C : Type} (f : A -> B) (g : A -> C) (l : list A) :
  combine l (combine (map f l) (map g l)) = map (fun x => (x, (f x, g x))) l.
Proof. induction l as [|h t IH]; simpl; [reflexivity | now rewrite IH]. Qed.

(** What [similar_rent_prices] returns or raises on a frame with one row per
    street. *)
Lemma similar_rent_prices_result (s : sorter) (street_data : list street_row) (n : Z) :
  NoDup (map sr_street street_data) ->
  let w := head_length n (List.length street_data - 1) in
  similar_rent_prices s street_data n
  = if (w =? 5)%nat || (List.length street_data =? 0)%nat
    then Ok (map (fun t => unpacked_row t (similar_streets s street_data n t)) street_data)
    else Raise (ColumnsPassed 5 w).
Proof.
  intros Hnd. cbv zeta.
  assert (Hlen : Forall (fun l => List.length l
                                  = head_length n (List.length street_data - 1))
                   (most_similar s street_data n)).
  { unfold most_similar. apply Forall_forall. intros l Hl.
    apply in_map_iff in Hl. destruct Hl as [t [<- Ht]].
    now apply similar_streets_length_any. }
  assert (Hlen' : forall (B : Type) (f : street_row -> B),
             Forall (fun l => List.length l
                              = head_length n (List.length street_data - 1))
                    (map (map f) (most_similar s street_data n))).
  { intros B f. apply Forall_forall. intros l Hl. apply in_map_iff in Hl.
    destruct Hl as [l' [<- Hl']]. rewrite length_map.
    rewrite Forall_forall in Hlen. now apply Hlen. }
  unfold similar_rent_prices.
  destruct street_data as [|t0 sd]; [now destruct (_ =? 5)%nat|].
  remember (t0 :: sd) as street_data eqn:Esd.
  replace (List.length street_data =? 0)%nat with false by (subst; reflexivity).
  rewrite orb_false_r.
  destruct (Nat.eqb_spec (head_length n (List.length street_data - 1)) 5) as [E|E].
  - rewrite E in Hlen'.
    rewrite (unpack_returns new_columns_streets) by apply Hlen'.
    rewrite (unpack_returns new_columns_rents) by apply Hlen'.
    cbn [bind]. f_equal. unfold most_similar. rewrite !map_map.
    rewrite combine_map_map, map_map. apply map_ext. intros t.
    unfold unpacked_row. cbn [fst snd]. now rewrite !map_map.
  - rewrite (unpack_raises new_columns_streets _
               (head_length n (List.length street_data - 1))); auto.
    unfold most_similar. subst. discriminate.
Qed.

Lemma street_aggregator_result (s : sorter) (complete_data : DataFrame) (n : Z) :
  let street_data := street_means complete_data in
  let w := head_length n (List.length street_data - 1) in
  get_street_aggregates s complete_data n
  = if (w =? 5)%nat || (List.length street_data =? 0)%nat
    then Ok (street_join complete_data
               (map (fun t => unpacked_row t (similar_streets s street_data n t))
                    street_data))
    else Raise (ColumnsPassed 5 w).
Proof.
  cbv zeta. rewrite get_street_aggregates_unfold.
  rewrite (similar_rent_prices_result s _ n (street_means_NoDup complete_data)).
  cbv zeta. now destruct (_ || _).
Qed.

(** X7.  When the street aggregator returns.  With S streets that have an
    apartment listing of 2023, every list of similar streets has as many
    entries as [head(N)] keeps of S - 1 rows; the aggregator returns a table
    exactly when that number is 5 or S is 0, and otherwise raises on the five
    hard-coded column names.  With the default N = 5 it returns exactly when
    there is no such street or there are at least six; without streets the
    table is empty. *)
Theorem street_aggregator_returns_iff (s : sorter) (complete_data : DataFrame) (n : Z) :
  let streets := List.length (street_means complete_data) in
  let w := head_length n (streets - 1) in
  ((exists out, get_street_aggregates s complete_data n = Ok out)
   <-> w = 5%nat \/ streets = 0%nat)
  /\ (w <> 5%nat -> streets <> 0%nat ->
      get_street_aggregates s complete_data n = Raise (ColumnsPassed 5 w))
  /\ (streets = 0%nat -> get_street_aggregates s complete_data n = Ok [])
  /\ ((exists out, get_street_aggregates s complete_data 5 = Ok out)
      <-> streets = 0%nat \/ (6 <= streets)%nat).
Proof.
  cbv zeta.
  assert (Hgen : forall n,
             (exists out, get_street_aggregates s complete_data n = Ok out)
             <-> head_length n (List.length (street_means complete_data) - 1) = 5%nat
                 \/ List.length (street_means complete_data) = 0%nat).
  { intros n'. rewrite street_aggregator_result. cbv zeta.
    destruct (Nat.eqb_spec (head_length n' (List.length (street_means complete_data) - 1)) 5)
      as [E|E];
      destruct (Nat.eqb_spec (List.length (street_means complete_data)) 0) as [E0|E0];
      cbn [orb]; split; eauto; try tauto.
    intros [out H]. discriminate. }
  split; [apply Hgen|]. split; [|split].
  - intros Hw Hs. rewrite street_aggregator_result. cbv zeta.
    destruct (Nat.eqb_spec (head_length n (List.length (street_means complete_data) - 1)) 5);
      [contradiction|].
    destruct (Nat.eqb_spec (List.length (street_means complete_data)) 0);
      [contradiction | reflexivity].
  - intros Hs. rewrite street_aggregator_result. cbv zeta.
    rewrite Hs. rewrite orb_true_r.
    destruct (street_means complete_data); [reflexivity | discriminate].
  - rewrite Hgen. unfold head_length. cbn [Z.leb Z.compare Z.to_nat Pos.to_nat Pos.iter_op].
    lia.
Qed.

Lemma street_aggregator_returns_iff_witness :
  (exists out, get_street_aggregates stable_sorter six_streets 5 = Ok out)
  /\ get_street_aggregates stable_sorter four_streets 5 = Raise (ColumnsPassed 5 3)
  /\ get_street_aggregates stable_sorter (mkFrame [] None) 5 = Ok [].
Proof.
  split; [|split].
  - apply (proj2 (proj2 (proj2 (street_aggregator_returns_iff stable_sorter six_streets 5)))).
    right. vm_compute. lia.
  - apply (proj1 (proj2 (street_aggregator_returns_iff stable_sorter four_streets 5)));
      vm_compute; discriminate.
  - apply (proj1 (proj2 (proj2 (street_aggregator_returns_iff stable_sorter
                                  (mkFrame [] None) 5)))).
    reflexivity.
Defined.

(** ** The similar streets are the nearest ones *)

Lemma StronglySorted_app_le {A : Type} (R : A -> A -> Prop) (l1 l2 : list A) :
  StronglySorted R (l1 ++ l2) -> forall a b, In a l1 -> In b l2 -> R a b.
Proof.
  induction l1 as [|h t IH]; simpl; intros Hs a b Ha Hb; [contradiction|].
  apply StronglySorted_inv in Hs. destruct Hs as [Hs Hh].
  destruct Ha as [<-|Ha]; [|now apply IH].
  rewrite Forall_forall in Hh. apply Hh. apply in_or_app. now right.
Qed.

Lemma head_is_firstn {A : Type} (n : Z) (l : list A) :
  exists k, head n l = firstn k l.
Proof. unfold head. destruct (0 <=? n); eauto. Qed.

(** X8.  The streets listed as similar to S are nearest in price: every other
    street of the table that is not listed is at least as far from S, in
    absolute difference of mean rent_per_square_meter, as every listed one.
    This holds for every N and for every sort. *)
Theorem similar_streets_are_nearest (s : sorter) (street_data : list street_row) (n : Z)
    (target x y : street_row) :
  In x (similar_streets s street_data n target) ->
  In y street_data ->
  sr_street y <> sr_street target ->
  ~ In y (similar_streets s street_data n target) ->
  (abs_diff (sr_sqm target) x <= abs_diff (sr_sqm target) y)%Q.
Proof.
  rewrite similar_streets_unfold. intros Hx Hy Hne Hnot.
  destruct (head_is_firstn n (sort_values s (other_streets street_data target)))
    as [k Hk].
  rewrite Hk in Hx, Hnot.
  pose proof (sort_values_perm s (other_streets street_data target)) as Hperm.
  pose proof (Sorted_StronglySorted by_abs_diff_trans
                (sort_values_sorted s (other_streets street_data target))) as Hsorted.
  rewrite <- (firstn_skipn k (sort_values s (other_streets street_data target)))
    in Hsorted.
  apply in_map_iff in Hx. destruct Hx as [px [Epx Hpx]].
  assert (Hkeyx : snd px = abs_diff (sr_sqm target) x).
  { assert (Hin : In px (other_streets street_data target)).
    { apply (Permutation_in _ Hperm). eapply In_firstn. exact Hpx. }
    unfold other_streets in Hin. apply in_map_iff in Hin.
    destruct Hin as [o [<- _]]. simpl in Epx |- *. now subst. }
  assert (Hpy : In (y, abs_diff (sr_sqm target) y)
                   (skipn k (sort_values s (other_streets street_data target)))).
  { assert (Hin : In (y, abs_diff (sr_sqm target) y)
                     (sort_values s (other_streets street_data target))).
    { apply (Permutation_in _ (Permutation_sym Hperm)).
      unfold other_streets. apply in_map_iff. exists y. split; [reflexivity|].
      apply filter_In. split; [assumption|].
      apply negb_true_iff, String.eqb_neq. assumption. }
    rewrite <- (firstn_skipn k) in Hin. apply in_app_or in Hin.
    destruct Hin as [Hin|Hin]; [|assumption].
    exfalso. apply Hnot. apply in_map_iff. eexists. split; [|exact Hin]. reflexivity. }
  pose proof (StronglySorted_app_le _ _ _ Hsorted _ _ Hpx Hpy) as Hle.
  unfold by_abs_diff in Hle. simpl in Hle. now rewrite Hkeyx in Hle.
Qed.

Lemma similar_streets_are_nearest_witness :
  (abs_diff (100 # 1) (mkStreet "Skovvej" (102#1) (8000#1))
   <= abs_diff (100 # 1) (mkStreet "Nygade" (150#1) (8000#1)))%Q.
Proof.
  apply (similar_streets_are_nearest quicksort_sorter (street_means six_streets) 3
           (mkStreet "Aagade" (100#1) (8000#1))).
  - vm_compute. tauto.
  - vm_compute. tauto.
  - discriminate.
  - vm_compute. intros [H|[H|[H|[]]]]; discriminate.
Defined.

(** ** The rows of the street table *)

Lemma street_table_Ok (s : sorter) (complete_data : DataFrame) (n : Z)
    (out : list street_aggregate) :
  get_street_aggregates s complete_data n = Ok out ->
  out = street_join complete_data
          (map (fun t => unpacked_row t (similar_streets s (street_means complete_data) n t))
               (street_means complete_data))
  /\ (out <> [] ->
      head_length n (List.length (street_means complete_data) - 1) = 5%nat).
Proof.
  rewrite street_aggregator_result. cbv zeta.
  destruct (Nat.eqb_spec (head_length n (List.length (street_means complete_data) - 1)) 5)
    as [E|E]; cbn [orb].
  - intros [= <-]. auto.
  - destruct (Nat.eqb_spec (List.length (street_means complete_data)) 0) as [E0|E0];
      [|discriminate].
    intros [= <-]. split; [reflexivity|].
    destruct (street_means complete_data); [|discriminate].
    intros H. now contradiction H.
Qed.

(** X9.  In a table that the street aggregator returns, the row of a street S
    carries the list of similar streets computed for S: the five columns
    most_similar_1 to most_similar_5 hold the names of its five entries in
    order, the columns most_similar_rent_1 to most_similar_rent_5 hold the mean
    rent_per_square_meter of the same five streets, and no cell is empty. *)
Theorem street_row_carries_similar_streets (s : sorter) (complete_data : DataFrame)
    (n : Z) (out : list street_aggregate) (r : street_aggregate) :
  get_street_aggregates s complete_data n = Ok out ->
  In r out ->
  exists target,
    In target (street_means complete_data)
    /\ sa_street r = sr_street target
    /\ sa_rent_per_square_meter r = sr_sqm target
    /\ let similar := similar_streets s (street_means complete_data) n target in
       List.length similar = 5%nat
       /\ Forall (fun x => In x (street_means complete_data)) similar
       /\ sa_most_similar r
          = combine new_columns_streets (map (fun x => Some (sr_street x)) similar)
       /\ sa_most_similar_rent r
          = combine new_columns_rents (map (fun x => Some (sr_sqm x)) similar).
Proof.
  intros Hout Hr. apply street_table_Ok in Hout. destruct Hout as [Hout Hw].
  assert (Hne : out <> []) by (intros E; rewrite E in Hr; destruct Hr).
  specialize (Hw Hne). subst out.
  unfold street_join in Hr. apply merge_In in Hr.
  destruct Hr as [a [geo [Ha [_ [_ ->]]]]].
  apply merge_In in Ha. destruct Ha as [x [c [Hx [_ [_ ->]]]]].
  apply in_map_iff in Hx. destruct Hx as [target [<- Ht]].
  exists target. cbn. split; [assumption|]. split; [reflexivity|]. split; [reflexivity|].
  split; [|split; [|split; reflexivity]].
  - rewrite similar_streets_length_any; auto using street_means_NoDup.
  - apply Forall_forall. intros y Hy. now apply similar_streets_In in Hy.
Qed.

Lemma street_row_carries_similar_streets_witness :
  exists out r,
    get_street_aggregates stable_sorter six_streets 5 = Ok out
    /\ In r out
    /\ sa_street r = "Nygade"
    /\ map snd (sa_most_similar r)
       = [Some "Torvet"; Some "Bakken"; Some "Skovvej"; Some "Aagade"; Some "Engvej"]
    /\ map snd (sa_most_similar_rent r)
       = [Some (131#1); Some (106#1); Some (102#1); Some (100#1); Some (98#1)].
Proof.
  pose (out := match get_street_aggregates stable_sorter six_streets 5 with
               | Ok o => o
               | Raise _ => []
               end).
  pose (r := nth 3 out (mkAggregate "" 0 0 [] [] 0 "")).
  assert (E : get_street_aggregates stable_sorter six_streets 5 = Ok out)
    by (vm_compute; reflexivity).
  assert (Hin : In r out) by (vm_compute; tauto).
  destruct (street_row_carries_similar_streets stable_sorter six_streets 5 out r E Hin)
    as [target [_ [_ [_ [_ [_ [Hs Hr]]]]]]].
  exists out, r. split; [exact E|]. split; [exact Hin|].
  split; [reflexivity|]. split; reflexivity.
Defined.

Lemma rows_of_map {A B : Type} (f : A -> B) (key : B -> string) (d : string)
    (l : list A) :
  rows_of key d (map f l) = rows_of (fun a => key (f a)) d l.
Proof.
  unfold rows_of. induction l as [|h t IH]; simpl; [reflexivity|].
  destruct (String.eqb (key (f h)) d); simpl; now rewrite IH.
Qed.

Lemma rows_of_absent {A : Type} (key : A -> string) (d : string) (l : list A) :
  ~ In d (map key l) -> rows_of key d l = 0%nat.
Proof.
  unfold rows_of. induction l as [|h t IH]; simpl; intros Hno; [reflexivity|].
  destruct (String.eqb_spec (key h) d) as [E|E]; [exfalso; auto|].
  apply IH. intros H. apply Hno. now right.
Qed.

Lemma street_geometry_keys (complete_data : DataFrame) (k : string) :
  In k (map fst (street_geometry complete_data))
  <-> In k (map street (apartments_of_2023 complete_data)).
Proof.
  unfold street_geometry. rewrite !in_map_iff. split.
  - intros [x [E Hx]]. rewrite (drop_duplicates_In pair_eqb pair_eqb_eq) in Hx.
    apply in_map_iff in Hx. destruct Hx as [l [<- Hl]]. exists l. auto.
  - intros [l [E Hl]]. exists (street l, geometry_street l). split; [assumption|].
    apply (drop_duplicates_In pair_eqb pair_eqb_eq).
    apply in_map_iff. exists l. auto.
Qed.

Lemma street_means_keys (complete_data : DataFrame) (k : string) :
  In k (map sr_street (street_means complete_data))
  <-> In k (map street (apartments_of_2023 complete_data)).
Proof.
  unfold street_means, groupby_street_mean. rewrite map_map. cbn [sr_street].
  rewrite map_id. apply group_keys_In.
Qed.

(** X10.  In a table that the street aggregator returns, a street has as many
    rows as its apartment listings of 2023 carry distinct geometry_street
    strings: none when it has no such listing, and exactly one when all of
    them carry the same string. *)
Theorem street_rows_per_street (s : sorter) (complete_data : DataFrame) (n : Z)
    (out : list street_aggregate) (k : string) :
  get_street_aggregates s complete_data n = Ok out ->
  rows_of sa_street k out = rows_of fst k (street_geometry complete_data)
  /\ (~ In k (map street (apartments_of_2023 complete_data)) ->
      rows_of sa_street k out = 0%nat)
  /\ (one_geometry_per_street complete_data ->
      In k (map street (apartments_of_2023 complete_data)) ->
      rows_of sa_street k out = 1%nat).
Proof.
  intros Hout. apply street_table_Ok in Hout. destruct Hout as [-> _].
  assert (Hrows : rows_of sa_street k
                    (street_join complete_data
                       (map (fun t => unpacked_row t
                               (similar_streets s (street_means complete_data) n t))
                            (street_means complete_data)))
                  = rows_of fst k (street_geometry complete_data)).
  { unfold street_join. fold (street_geometry complete_data).
    rewrite (merge_rows_of _ _ _ sa_street) by reflexivity.
    rewrite (merge_rows_of _ _ _ (fun a => sr_street (sim_row (fst a)))) by reflexivity.
    rewrite rows_of_map. cbn [sim_row unpacked_row].
    unfold groupby_street_count. rewrite rows_of_map. cbn [fst].
    change (fun a : street_row => sr_street a) with sr_street.
    rewrite (rows_of_NoDup sr_street k _ (street_means_NoDup complete_data)).
    rewrite (rows_of_NoDup (fun a => a) k (group_keys _)) by (rewrite map_id; apply group_keys_NoDup).
    rewrite map_id.
    rewrite (mem_ext k _ _ (street_means_keys complete_data k)).
    rewrite (mem_ext k _ _ (group_keys_In _ k)).
    destruct (mem k (map street (apartments_of_2023 complete_data))) eqn:E; [lia|].
    simpl. symmetry. apply rows_of_absent.
    rewrite street_geometry_keys, <- mem_In. congruence. }
  split; [exact Hrows|]. split.
  - intros Hno. rewrite Hrows. apply rows_of_absent. now rewrite street_geometry_keys.
  - intros Hone Hin. rewrite Hrows.
    rewrite rows_of_NoDup.
    + apply street_geometry_keys, mem_In in Hin. now rewrite Hin.
    + apply NoDup_map_NoDup_ForallPairs.
      * intros x y Hx Hy E. unfold street_geometry in Hx, Hy.
        rewrite (drop_duplicates_In pair_eqb pair_eqb_eq) in Hx, Hy.
        apply in_map_iff in Hx, Hy.
        destruct Hx as [l [<- Hl]], Hy as [l' [<- Hl']]. simpl in E.
        now rewrite E, (Hone l l' Hl Hl' E).
      * apply drop_duplicates_NoDup, pair_eqb_eq.
Qed.

Lemma street_rows_per_street_witness :
  exists out,
    get_street_aggregates stable_sorter six_streets 5 = Ok out
    /\ rows_of sa_street "Bakken" out = 1%nat
    /\ rows_of sa_street "Hovedgaden" out = 0%nat.
Proof.
  pose (out := match get_street_aggregates stable_sorter six_streets 5 with
               | Ok o => o
               | Raise _ => []
               end).
  assert (E : get_street_aggregates stable_sorter six_streets 5 = Ok out)
    by (vm_compute; reflexivity).
  destruct (street_rows_per_street stable_sorter six_streets 5 out "Bakken" E)
    as [_ [_ Hone]].
  destruct (street_rows_per_street stable_sorter six_streets 5 out "Hovedgaden" E)
    as [_ [Hnone _]].
  exists out. split; [exact E|]. split.
  - apply Hone; [|vm_compute; tauto].
    intros l l' Hl Hl' Hs. vm_compute in Hl, Hl'.
    repeat (destruct Hl as [<- | Hl]; [|try contradiction]);
    repeat (destruct Hl' as [<- | Hl']; [|try contradiction]);
    simpl in Hs |- *; try reflexivity; discriminate.
  - apply Hnone. vm_compute. intros H.
    repeat (destruct H as [H|H]; [discriminate|]). exact H.
Defined.

(** X11.  The rows of a returned street table are in ascending order of the
    street name. *)
Theorem street_rows_in_ascending_order (s : sorter) (complete_data : DataFrame) (n : Z)
    (out : list street_aggregate) :
  get_street_aggregates s complete_data n = Ok out ->
  StronglySorted string_le (map sa_street out).
Proof.
  intros Hout. apply street_table_Ok in Hout. destruct Hout as [-> _].
  unfold street_join.
  apply (merge_sorted _ _ _ sa_street); [reflexivity|].
  apply (merge_sorted _ _ _ (fun a => sr_street (sim_row (fst a)))); [reflexivity|].
  rewrite map_map. cbn [sim_row unpacked_row].
  change (map (fun x => sr_street x) (street_means complete_data))
    with (map sr_street (street_means complete_data)).
  rewrite street_means_streets. apply group_keys_sorted.
Qed.

Lemma street_rows_in_ascending_order_witness :
  exists out,
    get_street_aggregates stable_sorter six_streets 5 = Ok out
    /\ map sa_street out = ["Aagade"; "Bakken"; "Engvej"; "Nygade"; "Skovvej"; "Torvet"]
    /\ StronglySorted string_le (map sa_street out).
Proof.
  pose (out := match get_street_aggregates stable_sorter six_streets 5 with
               | Ok o => o
               | Raise _ => []
               end).
  assert (E : get_street_aggregates stable_sorter six_streets 5 = Ok out)
    by (vm_compute; reflexivity).
  exists out. split; [exact E|]. split; [reflexivity|].
  exact (street_rows_in_ascending_order stable_sorter six_streets 5 out E).
Defined.

(** ** The lists of similar streets *)

Lemma filter_keeps_keys_distinct {A : Type} (key : A -> string) (keep : A -> bool)
    (rows : list A) (Hnd : NoDup (map key rows)) :
  NoDup (map key (filter keep rows)).
Proof.
  induction rows as [|h t IH]; simpl; [constructor|].
  inversion Hnd as [|? ? Hno Hnd']; subst.
  destruct (keep h); simpl; [|now apply IH].
  constructor; [|now apply IH].
  intros Hin. apply Hno. apply in_map_iff in Hin. destruct Hin as [x [E Hx]].
  apply filter_In in Hx. apply in_map_iff. exists x. tauto.
Qed.

Lemma NoDup_firstn {A : Type} (k : nat) (l : list A) : NoDup l -> NoDup (firstn k l).
Proof.
  intros Hnd. rewrite <- (firstn_skipn k l) in Hnd. now apply NoDup_app_remove_r in Hnd.
Qed.

(** X12.  When the street names of [street_data] are distinct, as they are
    after the [groupby], no street occurs twice in the list of similar streets
    of a street, for every N and every sort. *)
Theorem similar_streets_are_distinct (s : sorter) (street_data : list street_row) (n : Z)
    (target : street_row) :
  NoDup (map sr_street street_data) ->
  NoDup (map sr_street (similar_streets s street_data n target)).
Proof.
  intros Hnd. rewrite similar_streets_unfold.
  destruct (head_is_firstn n (sort_values s (other_streets street_data target)))
    as [k ->].
  rewrite map_map, <- firstn_map. apply NoDup_firstn.
  apply (Permutation_NoDup
           (Permutation_sym (Permutation_map _ (sort_values_perm s _)))).
  unfold other_streets. rewrite map_map. cbn [fst].
  now apply filter_keeps_keys_distinct.
Qed.

Lemma similar_streets_are_distinct_witness :
  NoDup (map sr_street
           (similar_streets quicksort_sorter (street_means six_streets) 4
              (mkStreet "Torvet" (131#1) (8000#1)))).
Proof.
  apply similar_streets_are_distinct. apply street_means_NoDup.
Defined.

(** X13.  For a negative N the list of similar streets of a street of the
    table has max(0, S - 1 + N) entries, S being the number of streets:
    [head(N)] drops the last -N of the S - 1 other streets. *)
Theorem similar_streets_length_negative_n (s : sorter) (complete_data : DataFrame)
    (n : Z) (target : street_row) :
  In target (street_means complete_data) ->
  n < 0 ->
  Z.of_nat (List.length (similar_streets s (street_means complete_data) n target))
  = Z.max 0 (Z.of_nat (List.length (street_means complete_data)) - 1 + n).
Proof.
  intros Hin Hn.
  rewrite similar_streets_length_any; auto using street_means_NoDup.
  unfold head_length. destruct (Z.leb_spec 0 n); [lia|].
  assert (List.length (street_means complete_data) <> 0%nat)
    by (destruct (street_means complete_data); [contradiction | discriminate]).
  lia.
Qed.

Lemma similar_streets_length_negative_n_witness :
  Z.of_nat (List.length (similar_streets stable_sorter (street_means six_streets) (-2)
                           (mkStreet "Aagade" (100#1) (8000#1))))
  = Z.max 0 (Z.of_nat (List.length (street_means six_streets)) - 1 + -2).
Proof.
  apply (similar_streets_length_negative_n stable_sorter six_streets (-2)
           (mkStreet "Aagade" (100#1) (8000#1))).
  - left. reflexivity.
  - lia.
Defined.

(** * A whole run *)

Lemma head_length_5 (m : nat) : head_length 5 m = Nat.min 5 m.
Proof. reflexivity. Qed.

Lemma district_table_returns_iff (complete_data : DataFrame) :
  (exists out, snd (get_district_aggregates complete_data) = Ok out)
  <-> all_combos_occur complete_data /\ all_buckets_occur_in_2023 complete_data.
Proof.
  rewrite district_table_unfold. split.
  - intros [out H].
    destruct (set_columns price_names (price_table complete_data)) as [p|] eqn:Ep;
      [|discriminate].
    destruct (set_columns count_names (count_table complete_data)) as [c|] eqn:Ec;
      [|discriminate].
    apply set_columns_Ok in Ep, Ec. split.
    + apply price_table_full. tauto.
    + apply count_table_full. tauto.
  - intros [Hp Hc].
    apply price_table_full in Hp. apply count_table_full in Hc.
    unfold set_columns. rewrite Hp, Hc, !Nat.eqb_refl. simpl. eauto.
Qed.

Lemma street_means_nonempty (complete_data : DataFrame) :
  all_combos_occur complete_data ->
  List.length (street_means complete_data) <> 0%nat.
Proof.
  intros Hall. destruct (Hall apartment "now") as [l [Hl [Hk Ht]]]; [simpl; tauto|].
  apply time_of_cases in Ht.
  assert (Hin : In (street l) (map sr_street (street_means complete_data))).
  { apply street_means_keys. apply in_map. unfold apartments_of_2023.
    apply filter_In. split.
    - apply filter_In. split; [assumption | lia].
    - now apply rental_eqb_eq. }
  destruct (street_means complete_data); [destruct Hin | discriminate].
Qed.

(** X14.  A whole run, which calls the street aggregator with N = 5 after the
    district aggregator, returns both tables exactly when every pair
    (rental_type, time) occurs among the listings, every rooms bucket occurs
    among the listings of 2023, and at least six streets have an apartment
    listing of 2023.  When the first two conditions hold with fewer than six
    such streets, the run ends in the exception of the street aggregator,
    after the district table has been computed. *)
Theorem whole_run_returns_iff (s : sorter) (complete_data : DataFrame) :
  let streets := List.length (street_means complete_data) in
  ((exists tables, main s complete_data = Ok tables)
   <-> all_combos_occur complete_data /\ all_buckets_occur_in_2023 complete_data
       /\ (6 <= streets)%nat)
  /\ (forall district_data street_data,
        main s complete_data = Ok (district_data, street_data) ->
        snd (get_district_aggregates complete_data) = Ok district_data
        /\ get_street_aggregates s complete_data 5 = Ok street_data)
  /\ (all_combos_occur complete_data -> all_buckets_occur_in_2023 complete_data ->
      (streets < 6)%nat ->
      (exists district_data,
         snd (get_district_aggregates complete_data) = Ok district_data)
      /\ main s complete_data = Raise (ColumnsPassed 5 (streets - 1))).
Proof.
  cbv zeta.
  assert (Hmain : main s complete_data
                  = (district_data <- snd (get_district_aggregates complete_data) ;;
                     street_data <- get_street_aggregates s complete_data 5 ;;
                     Ok (district_data, street_data))) by reflexivity.
  assert (Hstreet : get_street_aggregates s complete_data 5
                    = if (6 <=? List.length (street_means complete_data))%nat
                         || (List.length (street_means complete_data) =? 0)%nat
                      then get_street_aggregates s complete_data 5
                      else Raise (ColumnsPassed 5
                                    (List.length (street_means complete_data) - 1))).
  { rewrite street_aggregator_result at 1 2. cbv zeta. rewrite head_length_5.
    destruct (Nat.leb_spec 6 (List.length (street_means complete_data))) as [H6|H6];
      destruct (Nat.eqb_spec (List.length (street_means complete_data)) 0) as [H0|H0];
      cbn [orb]; try reflexivity.
    destruct (Nat.eqb_spec (Nat.min 5 (List.length (street_means complete_data) - 1)) 5);
      [lia|].
    cbn [orb]. f_equal. f_equal. lia. }
  split; [split|split].
  - intros [tables H]. rewrite Hmain in H.
    destruct (snd (get_district_aggregates complete_data)) as [dd|] eqn:Ed;
      [|discriminate].
    cbn [bind] in H.
    assert (Hd : all_combos_occur complete_data /\ all_buckets_occur_in_2023 complete_data)
      by (apply district_table_returns_iff; eauto).
    destruct Hd as [Hc Hb]. split; [assumption|]. split; [assumption|].
    pose proof (street_means_nonempty complete_data Hc) as Hne.
    rewrite Hstreet in H.
    destruct (Nat.leb_spec 6 (List.length (street_means complete_data))) as [H6|H6];
      [assumption|].
    destruct (Nat.eqb_spec (List.length (street_means complete_data)) 0) as [H0|H0];
      [contradiction|].
    cbn [orb bind] in H. discriminate.
  - intros [Hc [Hb H6]].
    destruct (proj2 (district_table_returns_iff complete_data) (conj Hc Hb)) as [dd Hd].
    rewrite Hmain, Hd. cbn [bind].
    rewrite street_aggregator_result. cbv zeta.
    replace (head_length 5 (List.length (street_means complete_data) - 1)) with 5%nat
      by (rewrite head_length_5; lia).
    cbn [Nat.eqb orb bind]. eauto.
  - intros dd sd H. rewrite Hmain in H.
    destruct (snd (get_district_aggregates complete_data)) as [dd'|]; [|discriminate].
    cbn [bind] in H.
    destruct (get_street_aggregates s complete_data 5) as [sd'|]; [|discriminate].
    cbn [bind] in H. injection H as -> ->. auto.
  - intros Hc Hb H6.
    destruct (proj2 (district_table_returns_iff complete_data) (conj Hc Hb)) as [dd Hd].
    split; [eauto|].
    pose proof (street_means_nonempty complete_data Hc) as Hne.
    rewrite Hmain, Hd. cbn [bind]. rewrite Hstreet.
    destruct (Nat.leb_spec 6 (List.length (street_means complete_data))) as [H6'|H6'];
      [lia|].
    destruct (Nat.eqb_spec (List.length (street_means complete_data)) 0) as [H0|H0];
      [contradiction | reflexivity].
Qed.

Lemma whole_run_returns_iff_witness :
  (exists district_data,
     snd (get_district_aggregates sample) = Ok district_data)
  /\ main stable_sorter sample = Raise (ColumnsPassed 5 1).
Proof.
  destruct (whole_run_returns_iff stable_sorter sample) as [_ [_ H]].
  apply H.
  - apply (proj1 (district_table_returns_iff sample)). eexists. vm_compute. reflexivity.
  - apply (proj1 (district_table_returns_iff sample)). eexists. vm_compute. reflexivity.
  - vm_compute. lia.
Defined.

(** * Ties are the only freedom of the sort *)

Lemma strictly_sorted_without_ties (l : list (street_row * Q)) :
  NoDup l ->
  (forall a b, In a l -> In b l -> (snd a == snd b)%Q -> a = b) ->
  StronglySorted by_abs_diff l ->
  StronglySorted (fun a b => (snd a < snd b)%Q) l.
Proof.
  intros Hnd Hinj Hs. induction Hs as [|h t Ht IH Hh]; [constructor|].
  inversion Hnd as [|? ? Hno Hnd']; subst.
  constructor.
  - apply IH; [assumption|]. intros a b Ha Hb. apply Hinj; now right.
  - rewrite Forall_forall in Hh |- *. intros x Hx.
    specialize (Hh x Hx). unfold by_abs_diff in Hh.
    apply Qle_lteq in Hh. destruct Hh as [Hlt|Heq]; [assumption|].
    exfalso. apply Hno.
    rewrite (Hinj h x (or_introl eq_refl) (or_intror Hx) Heq). assumption.
Qed.

Lemma other_streets_NoDup (street_data : list street_row) (target : street_row) :
  NoDup (map sr_street street_data) -> NoDup (other_streets street_data target).
Proof.
  intros Hnd. unfold other_streets.
  apply (NoDup_map_inv (fun p => sr_street (fst p))).
  rewrite map_map. cbn [fst]. now apply filter_keeps_keys_distinct.
Qed.

(** X15.  When no two other streets are at the same absolute price difference
    from S, the list of similar streets of S is the same whatever sort
    [sort_values] runs: the order of rows of equal difference is the only thing
    the choice of the sort can change. *)
Theorem similar_streets_determined_without_ties (s s' : sorter)
    (street_data : list street_row) (n : Z) (target : street_row) :
  NoDup (map sr_street street_data) ->
  (forall a b, In a street_data -> In b street_data ->
     sr_street a <> sr_street target -> sr_street b <> sr_street target ->
     (abs_diff (sr_sqm target) a == abs_diff (sr_sqm target) b)%Q -> a = b) ->
  similar_streets s street_data n target = similar_streets s' street_data n target.
Proof.
  intros Hnd Hties. rewrite !similar_streets_unfold.
  assert (Hstrict : StronglySorted (fun a b => (snd a < snd b)%Q)
                      (insertion_sort (other_streets street_data target))).
  { apply strictly_sorted_without_ties.
    - apply (Permutation_NoDup (Permutation_sym (insertion_sort_perm _))).
      now apply other_streets_NoDup.
    - intros a b Ha Hb E.
      apply (Permutation_in _ (insertion_sort_perm _)) in Ha, Hb.
      unfold other_streets in Ha, Hb. apply in_map_iff in Ha, Hb.
      destruct Ha as [x [<- Hx]], Hb as [y [<- Hy]].
      apply filter_In in Hx, Hy. destruct Hx as [Hx Hxn], Hy as [Hy Hyn].
      apply negb_true_iff, String.eqb_neq in Hxn, Hyn. simpl in E.
      now rewrite (Hties x y Hx Hy Hxn Hyn E).
    - apply Sorted_StronglySorted; [apply by_abs_diff_trans | apply insertion_sort_sorted]. }
  now rewrite (sort_values_unique s _ Hstrict), (sort_values_unique s' _ Hstrict).
Qed.

Lemma similar_streets_determined_without_ties_witness :
  similar_streets quicksort_sorter (street_means four_streets) 2
    (mkStreet "10" (10#1) (8000#1))
  = similar_streets stable_sorter (street_means four_streets) 2
      (mkStreet "10" (10#1) (8000#1)).
Proof.
  apply similar_streets_determined_without_ties.
  - apply street_means_NoDup.
  - intros a b Ha Hb Hna Hnb E. vm_compute in Ha, Hb.
    destruct Ha as [<-|[<-|[<-|[<-|[]]]]]; destruct Hb as [<-|[<-|[<-|[<-|[]]]]];
      try reflexivity; try (exfalso; apply Hna; reflexivity);
      try (exfalso; apply Hnb; reflexivity); vm_compute in E; discriminate.
Defined.

(** X16.  A returned street table has a row of street [k] with street geometry
    [g] exactly when some apartment listing of 2023 lies in street [k] and
    carries the geometry_street [g]: every such street is in the table, and
    the geometry is passed through from these listings. *)
Theorem street_rows_pair_street_and_geometry (s : sorter) (complete_data : DataFrame)
    (n : Z) (out : list street_aggregate) (k g : string) :
  get_street_aggregates s complete_data n = Ok out ->
  (exists r, In r out /\ sa_street r = k /\ sa_geometry_street r = g) <->
  exists l, In l (apartments_of_2023 complete_data)
            /\ street l = k /\ geometry_street l = g.
Proof.
  intros Hout. apply street_table_Ok in Hout. destruct Hout as [-> _].
  unfold street_join. split.
  - intros [r [Hr [Hk Hg]]]. apply merge_In in Hr.
    destruct Hr as [a [geo [_ [Hgeo [Hkey ->]]]]].
    cbn [sa_street sa_geometry_street] in Hk, Hg.
    rewrite (drop_duplicates_In pair_eqb pair_eqb_eq) in Hgeo.
    apply in_map_iff in Hgeo. destruct Hgeo as [l [<- Hl]]. simpl in Hkey, Hg.
    exists l. repeat split; congruence.
  - intros [l [Hl [Hk Hg]]].
    assert (Hkeys : In k (map sr_street (street_means complete_data))).
    { apply street_means_keys. apply in_map_iff. eauto. }
    apply in_map_iff in Hkeys. destruct Hkeys as [t [Et Ht]].
    set (x := unpacked_row t (similar_streets s (street_means complete_data) n t)).
    set (c := count (map id (filter (fun r => String.eqb (street r) k)
                               (apartments_of_2023 complete_data)))).
    exists (mkAggregate (sr_street (sim_row x)) (sr_sqm (sim_row x)) (sr_rent (sim_row x))
              (sim_streets x) (sim_rents x) c g).
    split; [|split; [exact Et | reflexivity]].
    apply merge_In. exists (x, c), (k, g). split; [|split; [|split; [exact Et | reflexivity]]].
    + apply merge_In. exists x, (k, c).
      split; [apply in_map_iff; exists t; auto|]. split; [|split; [exact Et | reflexivity]].
      unfold groupby_street_count. apply in_map_iff. exists k. split; [reflexivity|].
      apply group_keys_In. apply in_map_iff. exists l. auto.
    + apply (drop_duplicates_In pair_eqb pair_eqb_eq).
      apply in_map_iff. exists l. split; [congruence | assumption].
Qed.

Lemma street_rows_pair_street_and_geometry_witness :
  exists out r,
    get_street_aggregates stable_sorter six_streets 5 = Ok out
    /\ In r out /\ sa_street r = "Engvej" /\ sa_geometry_street r = "LINE Engvej".
Proof.
  pose (out := match get_street_aggregates stable_sorter six_streets 5 with
               | Ok o => o
               | Raise _ => []
               end).
  assert (E : get_street_aggregates stable_sorter six_streets 5 = Ok out)
    by (vm_compute; reflexivity).
  destruct (proj2 (street_rows_pair_street_and_geometry stable_sorter six_streets 5 out
                     "Engvej" "LINE Engvej" E)) as [r Hr].
  - exists (apartment_2023 4 "Engvej" (98#1)). split; [vm_compute; tauto|].
    split; reflexivity.
  - exists out, r. split; [exact E | exact Hr].
Defined.
